(** * Proposal lifecycle of the UMA optimistic-oracle module (safeSnap plugin)

    A shallow embedding of

    - [src/plugins/safeSnap/utils/umaModule.ts]: [getBondDetails] and
      [getModuleDetailsUma], the function that reads the module contract, the
      collateral token and the optimistic oracle and assembles the status of
      one proposal;
    - [src/plugins/safeSnap/components/HandleOutcome.vue]: the table
      [QuestionStates] and the computed property [questionState] that maps
      that status to the state shown to the user; [ensureRightNetwork],
      [getTransactions], [updateDetails], the three actions and the
      template;
    - [src/plugins/oSnap/components/TransactionBuilder/ContractInteraction.vue]:
      the functions that update the form and emit the transaction.

    Asynchronous contract reads are modelled in a small monad that records
    every read in a trace and can fail; the chain is a read-only snapshot. *)

From Stdlib Require Import ZArith List String Ascii Bool Lia.
From Stdlib Require Import DecimalString DecimalZ.
From Stdlib Require HexadecimalString HexadecimalZ.
Import ListNotations.

Local Open Scope string_scope.
Local Open Scope list_scope.
Local Open Scope Z_scope.

(* ================================================================= *)
(** ** JavaScript values and the library functions the code relies on *)

Module Js.

(** Truthiness of a string: only the empty string is falsy. *)
Definition truthy_string (s : string) : bool :=
  match s with
  | EmptyString => false
  | String _ _ => true
  end.

(** [BigNumber.prototype.toString()]: the canonical decimal numeral. *)
Definition BigNumber_toString (z : Z) : string :=
  NilZero.string_of_int (Z.to_int z).

(** [Number(bn)] for a BigNumber [bn]: the object is converted through its
    [toString()] and the numeral is read as an IEEE-754 binary64 value,
    that is, the integer is rounded to 53 significant bits, ties to even.
    The result is an integer again, so it is kept in [Z].  (Every uint256
    is far below the overflow threshold 2^1024.) *)
Definition Number (z : Z) : Z :=
  let a := Z.abs z in
  if a <? 2 ^ 53 then z
  else
    let e := Z.log2 a - 52 in
    let q := Z.shiftr a e in
    let r := a - Z.shiftl q e in
    let half := 2 ^ (e - 1) in
    let q' := if (half <? r) || ((r =? half) && Z.odd q) then q + 1 else q in
    Z.sgn z * Z.shiftl q' e.

(** [s.startsWith(p)]. *)
Fixpoint startsWith (p s : string) : bool :=
  match p, s with
  | EmptyString, _ => true
  | String a p', String b s' => Ascii.eqb a b && startsWith p' s'
  | String _ _, EmptyString => false
  end.

(** The string without its first [n] characters. *)
Fixpoint skip (n : nat) (s : string) : string :=
  match n, s with
  | O, _ => s
  | S n', String _ s' => skip n' s'
  | S _, EmptyString => EmptyString
  end.

(** [s.replace(pat, rep)] with a string pattern: only the first occurrence
    is replaced. *)
Fixpoint replace (pat rep s : string) : string :=
  if startsWith pat s then (rep ++ skip (String.length pat) s)%string
  else match s with
       | EmptyString => EmptyString
       | String c s' => String c (replace pat rep s')
       end.

(** [arr.includes(x)] on an array of strings. *)
Definition includes (arr : list string) (x : string) : bool :=
  existsb (String.eqb x) arr.

(** [arr.some(p)]. *)
Definition some {A} (p : A -> bool) (arr : list A) : bool := existsb p arr.

End Js.

(* ================================================================= *)
(** ** The status object and the state shown to the user *)

(** The object built in the [.then] callback of [getRequest]
    (umaModule.ts, lines 186-194).  [resolvedPrice] and [proposalTime] are
    fields of the decoded oracle request: a BigNumber ([Some z]) or
    [undefined] ([None]) when the decoded result has no such field. *)
Record FullProposalEvent := {
  expirationTimestamp : Z;
  isExpired : bool;
  isDisputed : bool;
  isSettled : bool;
  resolvedPrice : option Z;
  proposalHash : string;
  proposalTime : option Z
}.

(** The three values the field [proposalEvent] of the status can hold:
    [thisModuleFullProposalEvent[0]] is [undefined] for an empty array and an
    object otherwise; the branch without transactions stores [{}]. *)
Inductive ProposalEventValue :=
| PEUndefined
| PEEmptyObject
| PEObject (e : FullProposalEvent).

(** The object returned by [getModuleDetailsUma]. *)
Record ModuleDetailsUma := {
  dao : string;
  oracle : string;
  rules : string;
  minimumBond : Z;
  expiration : Z;
  allowance : Z;
  collateral : string;
  decimals : Z;
  symbol : string;
  userBalance : Z;
  needsBondApproval : bool;
  noTransactions : bool;
  activeProposal : bool;
  proposalEvent : ProposalEventValue;
  proposalExecuted : bool
}.

Module HandleOutcome.

(** The frozen table [QuestionStates] (HandleOutcome.vue, lines 37-48). *)
Inductive QuestionState :=
| error
| noWalletConnection
| loading
| waitingForProposal
| proposalApproved
| proposalRejected
| completelyExecuted
| disputedButNotResolved
| disputedResolvedValid.

Definition QuestionStates (s : QuestionState) : Z :=
  match s with
  | error => -1
  | noWalletConnection => 0
  | loading => 1
  | waitingForProposal => 2
  | proposalApproved => 3
  | proposalRejected => 4
  | completelyExecuted => 5
  | disputedButNotResolved => 6
  | disputedResolvedValid => 7
  end.

(** Reading a boolean field of [proposalEvent] in a condition: a missing
    field of [{}] is [undefined], which is falsy. *)
Definition field (f : FullProposalEvent -> bool) (pe : ProposalEventValue) : bool :=
  match pe with
  | PEObject e => f e
  | _ => false
  end.

(** [!proposalEvent.resolvedPrice]: a BigNumber is an object, hence truthy
    whatever its value; [undefined] is falsy. *)
Definition not_resolvedPrice (pe : ProposalEventValue) : bool :=
  match pe with
  | PEObject e => match resolvedPrice e with Some _ => false | None => true end
  | _ => true
  end.

(** [proposalEvent.resolvedPrice == 0]: [undefined == 0] is false; a
    BigNumber is converted to a primitive through [toString()] and then
    compared as a number. *)
Definition resolvedPrice_eq_0 (pe : ProposalEventValue) : bool :=
  match pe with
  | PEObject e =>
      match resolvedPrice e with
      | Some z => Js.Number z =? 0
      | None => false
      end
  | _ => false
  end.

(** The computed property [questionState] (HandleOutcome.vue, lines
    228-268).  [account] is [web3.value.account], [isLoading] is
    [loading.value] and [questionDetails] is [questionDetails.value]
    ([None] for [undefined]). *)
Definition questionState (account : string) (isLoading : bool)
    (questionDetails : option ModuleDetailsUma) : QuestionState :=
  if negb (Js.truthy_string account) then noWalletConnection
  else if isLoading then loading
  else
    match questionDetails with
    | None => error
    | Some details =>
        let pe := proposalEvent details in
        match pe with
        | PEUndefined => waitingForProposal
        | _ =>
            if field isExpired pe && negb (field isSettled pe)
            then proposalApproved
            else if field isSettled pe && negb (field isDisputed pe)
            then proposalApproved
            else if field isSettled pe
            then completelyExecuted
            else if field isDisputed pe && not_resolvedPrice pe
            then waitingForProposal
            else if field isDisputed pe && resolvedPrice_eq_0 pe
            then proposalRejected
            else error
        end
    end.

End HandleOutcome.

(* ================================================================= *)
(** ** The chain, the library and the monad of asynchronous reads *)

(** One element of [transactions]: the tuple
    [(address to, uint8 operation, uint256 value, bytes data)]. *)
Record Transaction := {
  to : string;
  operation : Z;
  value : Z;
  data : string
}.

(** The functions of ethers that the code calls and that are not part of the
    repository.  Byte strings ([bytes], [BytesLike], the hex strings ethers
    returns for them) are represented by their content, a [string] of bytes.
    - [isAddress s]: [getAddress(s)] accepts [s];
    - [abi_encode txs]: the ABI encoding of a batch whose fields are all
      well formed;
    - [toUtf8String b]: [None] when ethers throws on invalid UTF-8. *)
Record Ethers := {
  keccak256 : string -> string;
  isAddress : string -> bool;
  abi_encode : list Transaction -> string;
  toUtf8String : string -> option string
}.

(** Arguments of the oracle event [ProposePrice]. *)
Record ProposePriceEvent := {
  pp_requester : string;
  pp_identifier : string;
  pp_timestamp : Z;
  pp_ancillaryData : string;
  pp_expirationTimestamp : Z
}.

(** Arguments of the module event [TransactionsProposed] that the code reads. *)
Record TransactionsProposedEvent := {
  tp_explanation : string;
  tp_proposalTime : Z
}.

(** Arguments of the module event [ProposalExecuted]. *)
Record ProposalExecutedEvent := {
  pe_proposalHash : string;
  pe_proposalTime : Z
}.

(** The decoded result of the oracle's [getRequest].  [resolvedPrice] and
    [timestamp] are read by name from the decoded tuple; a name the ABI
    constant does not give to an output reads as [undefined] ([None]). *)
Record Request := {
  rq_disputer : string;
  rq_settled : bool;
  rq_resolvedPrice : option Z;
  rq_timestamp : option Z
}.

(** The five results of the [multicall]. *)
Record MulticallResult := {
  mc_avatar : string;
  mc_optimisticOracle : string;
  mc_rules : string;
  mc_bondAmount : Z;
  mc_liveness : Z
}.

(** Every read the code can start, with the contract it goes to. *)
Inductive Call :=
| Multicall (network moduleAddress : string)
| Module_collateral (moduleAddress : string)
| Erc20_symbol (token : string)
| Erc20_decimals (token : string)
| Erc20_allowance (token owner spender : string)
| Erc20_balanceOf (token owner : string)
| Module_proposalHashes (moduleAddress hash : string)
| Oracle_ProposePrice (oracleAddress requester : string)
| Oracle_getRequest (oracleAddress requester identifier : string)
    (timestamp : Z) (ancillaryData : string)
| Module_TransactionsProposed (moduleAddress : string)
| Module_ProposalExecuted (moduleAddress hash : string).

(** A snapshot of what each read resolves to.  [None] is a read that does
    not resolve: the promise of the node rejects, or the library throws
    before anything is sent ([multicall] of snapshot.js for a network that
    is missing from [networks.json], ethers for an address argument whose
    checksum is wrong).  [Date_now] is [Date.now()], milliseconds. *)
Record Chain := {
  rpc_multicall : string -> string -> option MulticallResult;
  rpc_collateral : string -> option string;
  rpc_symbol : string -> option string;
  rpc_decimals : string -> option Z;
  rpc_allowance : string -> string -> string -> option Z;
  rpc_balanceOf : string -> string -> option Z;
  rpc_proposalHashes : string -> string -> option Z;
  rpc_ProposePrice : string -> string -> option (list ProposePriceEvent);
  rpc_getRequest : string -> string -> string -> Z -> string -> option Request;
  rpc_TransactionsProposed : string -> option (list TransactionsProposedEvent);
  rpc_ProposalExecuted : string -> string -> option (list ProposalExecutedEvent);
  Date_now : Z
}.

(** What a rejected promise or a thrown error carries.  [RpcFailure] stands
    for whatever a read that does not resolve carries; the two other labels
    are the errors thrown by the ABI coder and by [toUtf8String]. *)
Inductive Exn :=
| RpcFailure
| InvalidArgument
| InvalidUtf8.

Module Async.

(** A computation appends the reads it starts to the trace and ends in a
    value or an exception. *)
Definition t (A : Type) : Type := list Call -> (Exn + A) * list Call.

Definition ret {A} (a : A) : t A := fun tr => (inr a, tr).

Definition throw {A} (e : Exn) : t A := fun tr => (inl e, tr).

Definition bind {A B} (m : t A) (k : A -> t B) : t B :=
  fun tr =>
    match m tr with
    | (inr a, tr') => k a tr'
    | (inl e, tr') => (inl e, tr')
    end.

(** [await] of one read: the read is started, then its answer decides. *)
Definition call {A} (c : Call) (answer : option A) : t A :=
  fun tr =>
    (match answer with Some a => inr a | None => inl RpcFailure end,
     tr ++ [c]).

(** A synchronous step that can throw. *)
Definition lift {A} (r : Exn + A) : t A := fun tr => (r, tr).

(** [await Promise.all(arr.map(f))]: every [f x] is started, in order,
    whether or not an earlier one rejects; the whole rejects as soon as one
    of them does. *)
Fixpoint Promise_all_map {A B} (f : A -> t B) (arr : list A) : t (list B) :=
  match arr with
  | [] => ret []
  | x :: xs =>
      fun tr =>
        let (r, tr1) := f x tr in
        let (rs, tr2) := Promise_all_map f xs tr1 in
        (match r, rs with
         | inr b, inr bs => inr (b :: bs)
         | inl e, _ => inl e
         | inr _, inl e => inl e
         end, tr2)
  end.

(** Run from the empty trace. *)
Definition run {A} (m : t A) : (Exn + A) * list Call := m [].

End Async.

Notation "x <- m ;; k" := (Async.bind m (fun x => k))
  (at level 61, m at next level, right associativity).

(* ================================================================= *)
(** ** umaModule.ts *)

Module UmaModule.

(** The value [bondInfo.value] returned by [getBondDetails]. *)
Record BondInfo := {
  bi_collateral : string;
  bi_symbol : string;
  bi_decimals : Z;
  currentUserBondAllowance : Z;
  currentUserBalance : Z
}.

Definition zeroAddress : string := "0x0000000000000000000000000000000000000000".

(** [pack] of ethers/solidity on [string] and [bytes] arguments: the
    concatenation of the contents. *)
Definition pack (parts : list string) : string :=
  fold_right String.append "" parts.

(** A tuple the ABI coder accepts: [address], [uint8], [uint256]. *)
Definition wellFormed (lib : Ethers) (tx : Transaction) : bool :=
  isAddress lib (to tx)
  && (0 <=? operation tx) && (operation tx <? 2 ^ 8)
  && (0 <=? value tx) && (value tx <? 2 ^ 256).

(** [defaultAbiCoder.encode(['(address to, uint8 operation, uint256 value,
    bytes data)[]'], [transactions])]: throws on the first field that is
    not of its type. *)
Definition defaultAbiCoder_encode (lib : Ethers) (transactions : list Transaction)
    : Exn + string :=
  if forallb (wellFormed lib) transactions
  then inr (abi_encode lib transactions)
  else inl InvalidArgument.

(** Lines 98-103. *)
Definition computeProposalHash (lib : Ethers) (transactions : list Transaction)
    : Exn + string :=
  match defaultAbiCoder_encode lib transactions with
  | inr encoded => inr (keccak256 lib encoded)
  | inl e => inl e
  end.

(** Lines 105-112. *)
Definition computeAncillaryData (proposalHash : string) : string :=
  pack [""; pack ["proposalHash"; ":"]; Js.replace "0x" "" proposalHash].

(** The predicate of the filter at lines 158-162. *)
Definition matchesProposal (ancillaryData : string) (proposalHashTimestamp : Z)
    (event : ProposePriceEvent) : bool :=
  String.eqb (pp_ancillaryData event) ancillaryData
  && String.eqb (Js.BigNumber_toString (pp_timestamp event))
                (Js.BigNumber_toString proposalHashTimestamp).

Definition thisModuleProposalEvent (ancillaryData : string)
    (proposalHashTimestamp : Z) (proposalEvents : list ProposePriceEvent)
    : list ProposePriceEvent :=
  filter (matchesProposal ancillaryData proposalHashTimestamp) proposalEvents.

(** The [.then] callback at lines 176-195. *)
Definition fullProposalEvent (now : Z) (hash : string)
    (event : ProposePriceEvent) (result : Request) : FullProposalEvent :=
  let disputed :=
    if String.eqb (rq_disputer result) zeroAddress then false else true in
  let expired :=
    Js.Number (pp_expirationTimestamp event) <=? now / 1000 in
  {| expirationTimestamp := pp_expirationTimestamp event;
     isExpired := expired;
     isDisputed := disputed;
     isSettled := rq_settled result;
     resolvedPrice := rq_resolvedPrice result;
     proposalHash := hash;
     proposalTime := rq_timestamp result |}.

(** The filter at lines 203-206; [toUtf8String] throws on the first
    explanation that is not valid UTF-8. *)
Fixpoint thisProposalTransactionsProposedEvents (lib : Ethers)
    (explanation : string) (events : list TransactionsProposedEvent)
    : Exn + list TransactionsProposedEvent :=
  match events with
  | [] => inr []
  | event :: rest =>
      match toUtf8String lib (tp_explanation event) with
      | None => inl InvalidUtf8
      | Some s =>
          match thisProposalTransactionsProposedEvents lib explanation rest with
          | inl e => inl e
          | inr kept =>
              inr (if String.eqb s explanation then event :: kept else kept)
          end
      end
  end.

(** Lines 222-236. *)
Definition computeProposalExecuted
    (proposed : list TransactionsProposedEvent)
    (executionEvents : list ProposalExecutedEvent) : bool :=
  let proposalTimes :=
    map (fun tx => Js.BigNumber_toString (tp_proposalTime tx)) proposed in
  let executionTimes :=
    map (fun tx => Js.BigNumber_toString (pe_proposalTime tx)) executionEvents in
  Js.some (fun time => Js.includes executionTimes time) proposalTimes.

(** [a[0]]. *)
Definition first (a : list FullProposalEvent) : ProposalEventValue :=
  match a with
  | [] => PEUndefined
  | e :: _ => PEObject e
  end.

(** Lines 86-91. *)
Definition computeNeedsApproval (bond currentAllowance : Z) : bool :=
  (0 <? Js.Number bond) && (Js.Number currentAllowance <? Js.Number bond).

Section Engine.

Context (lib : Ethers) (chain : Chain).

(** [web3Account.value] of [useWeb3()]. *)
Context (web3Account : string).

Definition getBondDetails (moduleAddress : string) : Async.t BondInfo :=
  token <- Async.call (Module_collateral moduleAddress)
             (rpc_collateral chain moduleAddress) ;;
  sym <- Async.call (Erc20_symbol token) (rpc_symbol chain token) ;;
  dec <- Async.call (Erc20_decimals token) (rpc_decimals chain token) ;;
  allow <- (if Js.truthy_string web3Account
            then Async.call (Erc20_allowance token web3Account moduleAddress)
                   (rpc_allowance chain token web3Account moduleAddress)
            else Async.ret 0) ;;
  bal <- (if Js.truthy_string web3Account
          then Async.call (Erc20_balanceOf token web3Account)
                 (rpc_balanceOf chain token web3Account)
          else Async.ret 0) ;;
  Async.ret {| bi_collateral := token;
               bi_symbol := sym;
               bi_decimals := dec;
               currentUserBondAllowance := allow;
               currentUserBalance := bal |}.

(** One [getRequest] and its [.then] (lines 168-196). *)
Definition requestOf (optimisticOracle hash : string)
    (event : ProposePriceEvent) : Async.t FullProposalEvent :=
  result <- Async.call
              (Oracle_getRequest optimisticOracle (pp_requester event)
                 (pp_identifier event) (pp_timestamp event)
                 (pp_ancillaryData event))
              (rpc_getRequest chain optimisticOracle (pp_requester event)
                 (pp_identifier event) (pp_timestamp event)
                 (pp_ancillaryData event)) ;;
  Async.ret (fullProposalEvent (Date_now chain) hash event result).

(** [transactions] is [None] for [undefined]. *)
Definition getModuleDetailsUma (network moduleAddress explanation : string)
    (transactions : option (list Transaction)) : Async.t ModuleDetailsUma :=
  moduleDetails <- Async.call (Multicall network moduleAddress)
                     (rpc_multicall chain network moduleAddress) ;;
  let bond := mc_bondAmount moduleDetails in
  let optimisticOracle := mc_optimisticOracle moduleDetails in
  bondDetails <- getBondDetails moduleAddress ;;
  let needsApproval :=
    computeNeedsApproval bond (currentUserBondAllowance bondDetails) in
  match transactions with
  | None =>
      Async.ret
        {| dao := mc_avatar moduleDetails;
           oracle := mc_optimisticOracle moduleDetails;
           rules := mc_rules moduleDetails;
           minimumBond := bond;
           expiration := mc_liveness moduleDetails;
           allowance := currentUserBondAllowance bondDetails;
           collateral := bi_collateral bondDetails;
           decimals := bi_decimals bondDetails;
           symbol := bi_symbol bondDetails;
           userBalance := currentUserBalance bondDetails;
           needsBondApproval := needsApproval;
           noTransactions := true;
           activeProposal := false;
           proposalEvent := PEEmptyObject;
           proposalExecuted := false |}
  | Some txs =>
      hash <- Async.lift (computeProposalHash lib txs) ;;
      let ancillaryData := computeAncillaryData hash in
      currentProposalHashTimestamp <-
        Async.call (Module_proposalHashes moduleAddress hash)
          (rpc_proposalHashes chain moduleAddress hash) ;;
      proposalHashTimestamp <-
        Async.call (Module_proposalHashes moduleAddress hash)
          (rpc_proposalHashes chain moduleAddress hash) ;;
      let active := 0 <? proposalHashTimestamp in
      proposalEvents <-
        Async.call (Oracle_ProposePrice optimisticOracle moduleAddress)
          (rpc_ProposePrice chain optimisticOracle moduleAddress) ;;
      let matching :=
        thisModuleProposalEvent ancillaryData proposalHashTimestamp
          proposalEvents in
      thisModuleFullProposalEvent <-
        Async.Promise_all_map (requestOf optimisticOracle hash) matching ;;
      transactionsProposedEvents <-
        Async.call (Module_TransactionsProposed moduleAddress)
          (rpc_TransactionsProposed chain moduleAddress) ;;
      proposed <-
        Async.lift
          (thisProposalTransactionsProposedEvents lib explanation
             transactionsProposedEvents) ;;
      executionEvents <-
        Async.call (Module_ProposalExecuted moduleAddress hash)
          (rpc_ProposalExecuted chain moduleAddress hash) ;;
      let executed := computeProposalExecuted proposed executionEvents in
      Async.ret
        {| dao := mc_avatar moduleDetails;
           oracle := mc_optimisticOracle moduleDetails;
           rules := mc_rules moduleDetails;
           minimumBond := bond;
           expiration := mc_liveness moduleDetails;
           allowance := currentUserBondAllowance bondDetails;
           collateral := bi_collateral bondDetails;
           decimals := bi_decimals bondDetails;
           symbol := bi_symbol bondDetails;
           userBalance := currentUserBalance bondDetails;
           needsBondApproval := needsApproval;
           noTransactions := false;
           activeProposal := active;
           proposalEvent := first thisModuleFullProposalEvent;
           proposalExecuted := executed |}
  end.

End Engine.

End UmaModule.

(* ================================================================= *)
(** ** Vocabulary of the statements *)

(** Reads that belong to the correlation part of [getModuleDetailsUma]: the
    [proposalHashes] lookup, the event queries and [getRequest].  The other
    reads are the module configuration and the bond. *)
Definition isCorrelationRead (c : Call) : bool :=
  match c with
  | Module_proposalHashes _ _
  | Oracle_ProposePrice _ _
  | Oracle_getRequest _ _ _ _ _
  | Module_TransactionsProposed _
  | Module_ProposalExecuted _ _ => true
  | _ => false
  end.

(** Event queries proper. *)
Definition isEventQuery (c : Call) : bool :=
  match c with
  | Oracle_ProposePrice _ _
  | Module_TransactionsProposed _
  | Module_ProposalExecuted _ _ => true
  | _ => false
  end.

(** A trace without any correlation read. *)
Definition configOnly (tr : list Call) : bool :=
  forallb (fun c => negb (isCorrelationRead c)) tr.

(** No read of the snapshot fails. *)
Definition answers (chain : Chain) : Prop :=
  (forall n a, rpc_multicall chain n a <> None)
  /\ (forall a, rpc_collateral chain a <> None)
  /\ (forall t, rpc_symbol chain t <> None)
  /\ (forall t, rpc_decimals chain t <> None)
  /\ (forall t o s, rpc_allowance chain t o s <> None)
  /\ (forall t o, rpc_balanceOf chain t o <> None)
  /\ (forall a h, rpc_proposalHashes chain a h <> None)
  /\ (forall o r, rpc_ProposePrice chain o r <> None)
  /\ (forall o r i t d, rpc_getRequest chain o r i t d <> None)
  /\ (forall a, rpc_TransactionsProposed chain a <> None)
  /\ (forall a h, rpc_ProposalExecuted chain a h <> None).

(** The allowance the bond check uses (umaModule.ts, lines 36-40): the
    token's answer for a connected account, zero otherwise. *)
Definition allowanceRead (chain : Chain) (web3Account token moduleAddress : string)
    : option Z :=
  if Js.truthy_string web3Account
  then rpc_allowance chain token web3Account moduleAddress
  else Some 0.

Definition isSome {A} (o : option A) : bool :=
  match o with
  | Some _ => true
  | None => false
  end.

(** The reads of lines 74 and 84 resolve: the [multicall], the module's
    [collateral], the token's [symbol] and [decimals] and, for a connected
    account, its [allowance] and [balanceOf].  Nothing is asked of the
    [proposalHashes] lookup, of the event queries or of [getRequest]. *)
Definition configAnswers (chain : Chain)
    (web3Account network moduleAddress : string) : bool :=
  isSome (rpc_multicall chain network moduleAddress)
  && match rpc_collateral chain moduleAddress with
     | Some token =>
         isSome (rpc_symbol chain token)
         && isSome (rpc_decimals chain token)
         && (negb (Js.truthy_string web3Account)
             || (isSome (rpc_allowance chain token web3Account moduleAddress)
                 && isSome (rpc_balanceOf chain token web3Account)))
     | None => false
     end.

(** Every explanation the module has logged is valid UTF-8. *)
Definition decodable (lib : Ethers) (chain : Chain) : Prop :=
  forall a events event,
    rpc_TransactionsProposed chain a = Some events ->
    In event events ->
    toUtf8String lib (tp_explanation event) <> None.

(* ================================================================= *)
(** ** Concrete snapshots used to exercise the definitions *)

Module Sample.

(** A stand-in library: a constant digest, a shape check for addresses, a
    comma-separated encoding and the identity decoder. *)
Definition lib : Ethers :=
  {| keccak256 := fun _ =>
       "0x9f2c6b1d4e8a07c35b1f0e6d2a4c8b7e9d3f5a1c0b2e4d6f8a7c9e1b3d5f7a90";
     isAddress := fun s =>
       Nat.eqb (String.length s) 42 && Js.startsWith "0x" s;
     abi_encode := fun txs => String.concat "," (map to txs);
     toUtf8String := fun b => Some b |}.

Definition moduleAddress : string := "0x28CeBFE94a03DbCA9d17143e9d2Bd1155DC26D5d".
Definition oracleAddress : string := "0xA0Ae6609447e57a42c51B50EAe921D701823FFAe".
Definition tokenAddress : string := "0xC02aaA39b223FE8D0A0e5C4F27eAD9083C756Cc2".
Definition daoAddress : string := "0x8CC0F052fff7eaD7f2EdCCcaC895502E884a8a71".
Definition account : string := "0x3d9a1a2BD3C4e5F60718293A4B5c6d7E8f901234".
Definition network : string := "1".
Definition explanation : string := "QmYwAPJzv5CZsnA625s3Xf2nemtYgPpHdWEz79ojWnPbdG".

Definition tx1 : Transaction :=
  {| to := "0x6B175474E89094C44Da98b954EedeAC495271d0F";
     operation := 0; value := 0; data := "" |}.

Definition badTx : Transaction :=
  {| to := "0x6B17"; operation := 0; value := 0; data := "" |}.

Definition hash1 : string := keccak256 lib "".
Definition ancillary1 : string := UmaModule.computeAncillaryData hash1.

(** A snapshot in which every read answers. *)
Definition chainOf (bond allow proposed : Z) (events : list ProposePriceEvent)
    (request : Request) (tps : list TransactionsProposedEvent)
    (execs : list ProposalExecutedEvent) : Chain :=
  {| rpc_multicall := fun _ _ =>
       Some {| mc_avatar := daoAddress;
               mc_optimisticOracle := oracleAddress;
               mc_rules := "ipfs rules";
               mc_bondAmount := bond;
               mc_liveness := 7200 |};
     rpc_collateral := fun _ => Some tokenAddress;
     rpc_symbol := fun _ => Some "WETH";
     rpc_decimals := fun _ => Some 18;
     rpc_allowance := fun _ _ _ => Some allow;
     rpc_balanceOf := fun _ _ => Some (5 * 10 ^ 18);
     rpc_proposalHashes := fun _ _ => Some proposed;
     rpc_ProposePrice := fun _ _ => Some events;
     rpc_getRequest := fun _ _ _ _ _ => Some request;
     rpc_TransactionsProposed := fun _ => Some tps;
     rpc_ProposalExecuted := fun _ _ => Some execs;
     Date_now := 1700100000000 |}.

Definition event1 : ProposePriceEvent :=
  {| pp_requester := moduleAddress;
     pp_identifier := "ZODIAC";
     pp_timestamp := 1700000000;
     pp_ancillaryData := ancillary1;
     pp_expirationTimestamp := 1700007200 |}.

(** Same batch, same proposal time, logged a second time with another
    expiration. *)
Definition event2 : ProposePriceEvent :=
  {| pp_requester := moduleAddress;
     pp_identifier := "ZODIAC";
     pp_timestamp := 1700000000;
     pp_ancillaryData := ancillary1;
     pp_expirationTimestamp := 1800000000 |}.

(** The same batch proposed earlier: the ancillary data agrees, the
    timestamp does not. *)
Definition staleEvent : ProposePriceEvent :=
  {| pp_requester := moduleAddress;
     pp_identifier := "ZODIAC";
     pp_timestamp := 1690000000;
     pp_ancillaryData := ancillary1;
     pp_expirationTimestamp := 1690007200 |}.

Definition settledRequest : Request :=
  {| rq_disputer := UmaModule.zeroAddress;
     rq_settled := true;
     rq_resolvedPrice := Some (10 ^ 18);
     rq_timestamp := Some 1700000000 |}.

Definition proposed1 : TransactionsProposedEvent :=
  {| tp_explanation := explanation; tp_proposalTime := 1700000000 |}.

Definition executed1 : ProposalExecutedEvent :=
  {| pe_proposalHash := hash1; pe_proposalTime := 1700000000 |}.

(** The proposal was made, settled without dispute and executed. *)
Definition executedChain : Chain :=
  chainOf (2 * 10 ^ 18) (2 * 10 ^ 18) 1700000000 [event1] settledRequest
    [proposed1] [executed1].

(** The proposal is recorded by the module, the oracle query shows no
    event for it (only the earlier, stale one). *)
Definition laggingChain : Chain :=
  chainOf (2 * 10 ^ 18) (2 * 10 ^ 18) 1700000000 [staleEvent] settledRequest
    [proposed1] [].

(** Two oracle events carry both correlation keys. *)
Definition duplicateChain : Chain :=
  chainOf (2 * 10 ^ 18) (2 * 10 ^ 18) 1700000000 [staleEvent; event1; event2]
    settledRequest [proposed1] [].

(** Nothing proposed; the allowance is one wei short of the bond. *)
Definition shortAllowanceChain : Chain :=
  chainOf 2000000000000000000 1999999999999999999 0 [] settledRequest [] [].

Definition settledUndisputed (e : bool) : ModuleDetailsUma :=
  {| dao := daoAddress; oracle := oracleAddress; rules := "ipfs rules";
     minimumBond := 2 * 10 ^ 18; expiration := 7200;
     allowance := 2 * 10 ^ 18; collateral := tokenAddress; decimals := 18;
     symbol := "WETH"; userBalance := 5 * 10 ^ 18;
     needsBondApproval := false; noTransactions := false;
     activeProposal := true;
     proposalEvent :=
       PEObject (UmaModule.fullProposalEvent 1700100000000 hash1 event1
                   settledRequest);
     proposalExecuted := e |}.

(** A status with the given proposal event. *)
Definition statusWith (pe : ProposalEventValue) : ModuleDetailsUma :=
  {| dao := daoAddress; oracle := oracleAddress; rules := "ipfs rules";
     minimumBond := 2 * 10 ^ 18; expiration := 7200;
     allowance := 2 * 10 ^ 18; collateral := tokenAddress; decimals := 18;
     symbol := "WETH"; userBalance := 5 * 10 ^ 18;
     needsBondApproval := false; noTransactions := false;
     activeProposal := true; proposalEvent := pe;
     proposalExecuted := false |}.

Definition eventWith (expired disputed settled : bool) (price : option Z)
    : FullProposalEvent :=
  {| expirationTimestamp := 1700007200;
     isExpired := expired;
     isDisputed := disputed;
     isSettled := settled;
     resolvedPrice := price;
     proposalHash := hash1;
     proposalTime := Some 1700000000 |}.

End Sample.

(* ================================================================= *)
(** ** HandleOutcome.vue: network check, actions and template *)

(** What the page sees of the wallet.
    - [provider_chainId]: [getInstance().provider.value?.chainId] when it is
      a number ([None] for [undefined] and for any value that is not a
      number: such a value is never [===] to a number);
    - [provider_isMetaMask]: truthiness of
      [getInstance().provider.value?.isMetaMask];
    - [window_ethereum]: [window.ethereum] is defined;
    - [request_switch hex]: outcome of the [wallet_switchEthereumChain]
      request, [None] when it resolves and [Some code] when it rejects with
      an error object whose [code] is [code] ([Some None]: no numeric code);
      the outcome of [wallet_addEthereumChain] is caught and only logged, so
      it is not part of the record;
    - [chainId_after]: [window.ethereum.chainId] read after the sleep. *)
Record WalletEnv := {
  provider_chainId : option Z;
  provider_isMetaMask : bool;
  window_ethereum : bool;
  request_switch : string -> option (option Z);
  chainId_after : option string
}.

(** Errors thrown or rejected inside the component. *)
Inductive UiError :=
| TypeError
| WrongChain
| CouldNotSwitch
| Rejection.

(** Requests sent to [window.ethereum]. *)
Inductive WalletRequest :=
| SwitchEthereumChain (chainIdHex : string)
| AddEthereumChain (chainIdHex : string).

Module Network.

(** [n.toString(16)] for the result of [parseInt]: [None] is [NaN]. *)
Definition toString16 (n : option Z) : string :=
  match n with
  | Some z => HexadecimalString.NilZero.string_of_int (Z.to_hex_int z)
  | None => "NaN"
  end.

(** [a === b] between a number-or-undefined and the result of [parseInt]:
    [NaN] and [undefined] are equal to nothing. *)
Definition strictEq (a b : option Z) : bool :=
  match a, b with
  | Some x, Some y => x =? y
  | _, _ => false
  end.

(** [error.code === 4902]. *)
Definition isUnknownChain (code : option Z) : bool :=
  match code with
  | Some c => c =? 4902
  | None => false
  end.

(** The function [ensureRightNetwork] (lines 50-99).  [chainIdInt] is
    [parseInt(chainId)]; [networkKnown] says that [networks[chainId]] has
    the fields read when the parameters of [wallet_addEthereumChain] are
    built (otherwise building them throws inside the inner [try]).  The
    result carries the requests sent to the wallet, in order. *)
Definition ensureRightNetwork (chainIdInt : option Z) (networkKnown : bool)
    (w : WalletEnv) : (UiError + unit) * list WalletRequest :=
  if strictEq (provider_chainId w) chainIdInt then (inr tt, [])
  else if negb (window_ethereum w) || negb (provider_isMetaMask w)
  then (inl WrongChain, [])
  else
    let chainIdHex := ("0x" ++ toString16 chainIdInt)%string in
    let requests :=
      match request_switch w chainIdHex with
      | None => [SwitchEthereumChain chainIdHex]
      | Some code =>
          if isUnknownChain code && networkKnown
          then [SwitchEthereumChain chainIdHex; AddEthereumChain chainIdHex]
          else [SwitchEthereumChain chainIdHex]
      end in
    match chainId_after w with
    | Some c =>
        if String.eqb c chainIdHex then (inr tt, requests)
        else (inl CouldNotSwitch, requests)
    | None => (inl CouldNotSwitch, requests)
    end.

(** The computed properties [usingMetaMask] and [connectedToRightChain]
    (lines 216-222), as booleans. *)
Definition usingMetaMask (w : WalletEnv) : bool :=
  window_ethereum w && provider_isMetaMask w.

Definition connectedToRightChain (chainIdInt : option Z) (w : WalletEnv) : bool :=
  strictEq (provider_chainId w) chainIdInt.

End Network.

Module Template.

(** The leaves of the template (lines 275-349). *)
Inductive Element :=
| ErrorLabel
| ConnectWalletLabel
| LoadingSpinner
| ApproveBondButton
| SubmitProposalButton
| ExecuteButton
| SwitchChainLabel
| ExecutedLabel
| RejectedLabel.

(** [questionState === questionStates.x]: a comparison of the numbers of
    the table. *)
Definition stateIs (s x : HandleOutcome.QuestionState) : bool :=
  HandleOutcome.QuestionStates s =? HandleOutcome.QuestionStates x.

(** [questionDetails.needsBondApproval === b]; the template evaluates it
    only after [questionState === waitingForProposal], a state that is not
    reached without details. *)
Definition needsBondApprovalIs (b : bool) (questionDetails : option ModuleDetailsUma)
    : bool :=
  match questionDetails with
  | Some details => Bool.eqb (needsBondApproval details) b
  | None => false
  end.

Definition shown (c : bool) (e : Element) : list Element :=
  if c then [e] else [].

(** The elements the template selects, top to bottom.  The text of the
    labels is left out; [renderChecked] below adds the one interpolation
    that can throw. *)
Definition render (account : string) (isLoading : bool)
    (questionDetails : option ModuleDetailsUma)
    (chainIdInt : option Z) (w : WalletEnv) : list Element :=
  let state := HandleOutcome.questionState account isLoading questionDetails in
  shown (stateIs state HandleOutcome.error) ErrorLabel
  ++ shown (stateIs state HandleOutcome.noWalletConnection) ConnectWalletLabel
  ++ shown (stateIs state HandleOutcome.loading) LoadingSpinner
  ++ (if Network.connectedToRightChain chainIdInt w || Network.usingMetaMask w
      then
        shown (stateIs state HandleOutcome.waitingForProposal
              && needsBondApprovalIs true questionDetails) ApproveBondButton
        ++ shown (stateIs state HandleOutcome.waitingForProposal
                 && needsBondApprovalIs false questionDetails) SubmitProposalButton
        ++ shown (stateIs state HandleOutcome.proposalApproved) ExecuteButton
      else
        shown (negb (stateIs state HandleOutcome.loading)
              && negb (stateIs state HandleOutcome.noWalletConnection)) SwitchChainLabel)
  ++ shown (stateIs state HandleOutcome.completelyExecuted) ExecutedLabel
  ++ shown (stateIs state HandleOutcome.proposalRejected) RejectedLabel.

Definition isButton (e : Element) : bool :=
  match e with
  | ApproveBondButton | SubmitProposalButton | ExecuteButton => true
  | _ => false
  end.

Definition isSwitchChainLabel (e : Element) : bool :=
  match e with
  | SwitchChainLabel => true
  | _ => false
  end.

(** The computed [networkName] (lines 224-226), [networks[props.network].name]:
    [networkEntry] is the name in the entry of [networks.json] for the
    network, [None] when there is no entry; reading [.name] of [undefined]
    throws. *)
Definition networkName (networkEntry : option string) : UiError + string :=
  match networkEntry with
  | Some name => inr name
  | None => inl TypeError
  end.

(** [render] leaves the text of the labels out.  The label that asks to
    switch chain interpolates [networkName] (line 339), and it is the only
    place that reads it: where that label is rendered and [networkName]
    throws, the render function throws and nothing is shown. *)
Definition renderChecked (networkEntry : option string)
    (account : string) (isLoading : bool)
    (questionDetails : option ModuleDetailsUma)
    (chainIdInt : option Z) (w : WalletEnv) : UiError + list Element :=
  let elements := render account isLoading questionDetails chainIdInt w in
  if existsb isSwitchChainLabel elements
  then match networkName networkEntry with
       | inr _ => inr elements
       | inl e => inl e
       end
  else inr elements.

End Template.

(** The value of [actionInProgress] and [action2InProgress]: [false]
    initially, a name while an action runs, [null] afterwards. *)
Inductive Progress :=
| ProgressFalse
| ProgressNull
| InProgress (name : string).

(** What an action does besides changing the refs. *)
Inductive Effect :=
| Wallet (r : WalletRequest)
| BatchErrorCleared
| PluginCall (name : string)
| GeneratorNext (name : string)
| Notified
| Slept (ms : Z)
| ExecutionDetailsRequested (transactions : list Transaction).

(** The refs of the component and the log of its effects. *)
Record View := {
  v_loading : bool;
  v_actionInProgress : Progress;
  v_action2InProgress : Progress;
  v_questionDetails : option ModuleDetailsUma;
  v_pendingCount : Z;
  v_log : list Effect
}.

Module Ui.

(** A step of the component: it changes the view and ends normally or with
    an error. *)
Definition t (A : Type) : Type := View -> (UiError + A) * View.

Definition ret {A} (a : A) : t A := fun v => (inr a, v).

Definition throw {A} (e : UiError) : t A := fun v => (inl e, v).

Definition bind {A B} (m : t A) (k : A -> t B) : t B :=
  fun v =>
    match m v with
    | (inr a, v') => k a v'
    | (inl e, v') => (inl e, v')
    end.

Definition get : t View := fun v => (inr v, v).

Definition modify (f : View -> View) : t unit := fun v => (inr tt, f v).

(** [try { body } catch (e) { handler }]. *)
Definition try_catch {A} (body : t A) (handler : UiError -> t A) : t A :=
  fun v =>
    match body v with
    | (inr a, v') => (inr a, v')
    | (inl e, v') => handler e v'
    end.

(** [try { body } finally { final }]. *)
Definition try_finally {A} (body : t A) (final : t unit) : t A :=
  fun v =>
    let (r, v') := body v in
    match final v' with
    | (inr _, v'') => (r, v'')
    | (inl e, v'') => (inl e, v'')
    end.

Definition log (e : Effect) : t unit :=
  modify (fun v =>
    {| v_loading := v_loading v;
       v_actionInProgress := v_actionInProgress v;
       v_action2InProgress := v_action2InProgress v;
       v_questionDetails := v_questionDetails v;
       v_pendingCount := v_pendingCount v;
       v_log := v_log v ++ [e] |}).

Definition set_loading (b : bool) : t unit :=
  modify (fun v =>
    {| v_loading := b;
       v_actionInProgress := v_actionInProgress v;
       v_action2InProgress := v_action2InProgress v;
       v_questionDetails := v_questionDetails v;
       v_pendingCount := v_pendingCount v;
       v_log := v_log v |}).

Definition set_actionInProgress (p : Progress) : t unit :=
  modify (fun v =>
    {| v_loading := v_loading v;
       v_actionInProgress := p;
       v_action2InProgress := v_action2InProgress v;
       v_questionDetails := v_questionDetails v;
       v_pendingCount := v_pendingCount v;
       v_log := v_log v |}).

Definition set_action2InProgress (p : Progress) : t unit :=
  modify (fun v =>
    {| v_loading := v_loading v;
       v_actionInProgress := v_actionInProgress v;
       v_action2InProgress := p;
       v_questionDetails := v_questionDetails v;
       v_pendingCount := v_pendingCount v;
       v_log := v_log v |}).

Definition set_questionDetails (d : option ModuleDetailsUma) : t unit :=
  modify (fun v =>
    {| v_loading := v_loading v;
       v_actionInProgress := v_actionInProgress v;
       v_action2InProgress := v_action2InProgress v;
       v_questionDetails := d;
       v_pendingCount := v_pendingCount v;
       v_log := v_log v |}).

(** [pendingCount.value++] and [pendingCount.value--]. *)
Definition add_pendingCount (d : Z) : t unit :=
  modify (fun v =>
    {| v_loading := v_loading v;
       v_actionInProgress := v_actionInProgress v;
       v_action2InProgress := v_action2InProgress v;
       v_questionDetails := v_questionDetails v;
       v_pendingCount := v_pendingCount v + d;
       v_log := v_log v |}).

(** [await] of an outside call that resolves ([true]) or rejects. *)
Definition await (resolves : bool) : t unit :=
  if resolves then ret tt else throw Rejection.

End Ui.

Notation "x <~ m ;; k" := (Ui.bind m (fun x => k))
  (at level 61, m at next level, right associativity).
Notation "m ;;; k" := (Ui.bind m (fun _ => k))
  (at level 61, right associativity).

Module Actions.

Section WithProps.

(** An element of [batch.transactions] and the tuple
    [[t.to, Number(t.operation), t.value, t.data]] built from it. *)
Context {BatchTransaction : Type} (tuple : BatchTransaction -> Transaction).

(** [getTransactions] (lines 107-114).  A batch is given by its array
    [transactions]; reading [.to] of [transactions[0]] throws when the array
    is empty. *)
Fixpoint getTransactions (batches : list (list BatchTransaction))
    : UiError + list Transaction :=
  match batches with
  | [] => inr []
  | batch :: rest =>
      match batch with
      | [] => inl TypeError
      | t0 :: _ =>
          match getTransactions rest with
          | inr tuples => inr (tuple t0 :: tuples)
          | inl e => inl e
          end
      end
  end.

(** What lies outside the component during one action.
    - [batches]: the prop [batches];
    - [isAuthenticated]: [getInstance().isAuthenticated.value];
    - [wallet], [chainIdInt], [networkKnown]: what [ensureRightNetwork]
      reads, [chainIdInt] being [parseInt(props.network)];
    - [plugin_call]: the call [plugin.approveBond(...)],
      [plugin.submitProposal(...)] or [plugin.executeProposal(...)] returns
      the generator;
    - [first_next], [second_next]: the two [await generator.next()] resolve;
    - [getExecutionDetails txs]: what [plugin.getExecutionDetails] resolves
      to for these transactions, [None] when it rejects. *)
Record World := {
  batches : list (list BatchTransaction);
  isAuthenticated : bool;
  wallet : WalletEnv;
  chainIdInt : option Z;
  networkKnown : bool;
  plugin_call : bool;
  first_next : bool;
  second_next : bool;
  getExecutionDetails : list Transaction -> option ModuleDetailsUma
}.

Context (world : World).

Definition getTransactions' : Ui.t (list Transaction) :=
  fun v => (getTransactions (batches world), v).

(** [await ensureRightNetwork(props.network)]. *)
Definition awaitRightNetwork : Ui.t unit :=
  fun v =>
    let (r, requests) :=
      Network.ensureRightNetwork (chainIdInt world) (networkKnown world)
        (wallet world) in
    (r,
     {| v_loading := v_loading v;
        v_actionInProgress := v_actionInProgress v;
        v_action2InProgress := v_action2InProgress v;
        v_questionDetails := v_questionDetails v;
        v_pendingCount := v_pendingCount v;
        v_log := v_log v ++ map Wallet requests |}).

(** [updateDetails] (lines 116-131). *)
Definition updateDetails : Ui.t unit :=
  Ui.set_loading true ;;;
  Ui.try_finally
    (Ui.try_catch
       (logged <~ getTransactions' ;;
        txs <~ getTransactions' ;;
        Ui.log (ExecutionDetailsRequested txs) ;;;
        match getExecutionDetails world txs with
        | Some details => Ui.set_questionDetails (Some details)
        | None => Ui.throw Rejection
        end)
       (fun _ => Ui.ret tt))
    (Ui.set_loading false).

(** [approveBond] (lines 133-157).  [questionDetails.value.oracle] is read
    before the [try]: with no details this throws out of the function. *)
Definition approveBond : Ui.t unit :=
  v <~ Ui.get ;;
  match v_questionDetails v with
  | None => Ui.throw TypeError
  | Some details =>
      if negb (Js.truthy_string (oracle details)) then Ui.ret tt
      else
        Ui.try_catch
          (Ui.set_actionInProgress (InProgress "approve-bond") ;;;
           awaitRightNetwork ;;;
           Ui.log (PluginCall "approveBond") ;;;
           Ui.await (plugin_call world) ;;;
           Ui.log (GeneratorNext "approveBond") ;;;
           Ui.await (first_next world) ;;;
           Ui.set_actionInProgress ProgressNull ;;;
           Ui.add_pendingCount 1 ;;;
           Ui.log (GeneratorNext "approveBond") ;;;
           Ui.await (second_next world) ;;;
           Ui.log Notified ;;;
           Ui.add_pendingCount (-1) ;;;
           Ui.log (Slept 3000) ;;;
           updateDetails)
          (fun _ => Ui.set_actionInProgress ProgressNull)
  end.

(** [submitProposal] (lines 159-182). *)
Definition submitProposal : Ui.t unit :=
  if negb (isAuthenticated world) then Ui.ret tt
  else
    Ui.set_actionInProgress (InProgress "submit-proposal") ;;;
    Ui.try_finally
      (Ui.try_catch
         (awaitRightNetwork ;;;
          txs <~ getTransactions' ;;
          Ui.log (PluginCall "submitProposal") ;;;
          Ui.await (plugin_call world) ;;;
          Ui.log (GeneratorNext "submitProposal") ;;;
          Ui.await (first_next world) ;;;
          Ui.set_actionInProgress ProgressNull ;;;
          Ui.add_pendingCount 1 ;;;
          Ui.log (GeneratorNext "submitProposal") ;;;
          Ui.await (second_next world) ;;;
          Ui.log Notified ;;;
          Ui.add_pendingCount (-1) ;;;
          Ui.log (Slept 3000) ;;;
          updateDetails)
         (fun _ => Ui.ret tt))
      (Ui.set_actionInProgress ProgressNull).

(** [executeProposal] (lines 184-214). *)
Definition executeProposal : Ui.t unit :=
  if negb (isAuthenticated world) then Ui.ret tt
  else
    Ui.set_action2InProgress (InProgress "execute-proposal") ;;;
    networkOk <~ Ui.try_catch
                   (awaitRightNetwork ;;; Ui.ret true)
                   (fun _ => Ui.set_action2InProgress ProgressNull ;;;
                             Ui.ret false) ;;
    if negb networkOk then Ui.ret tt
    else
      Ui.try_catch
        (Ui.log BatchErrorCleared ;;;
         txs <~ getTransactions' ;;
         Ui.log (PluginCall "executeProposal") ;;;
         Ui.await (plugin_call world) ;;;
         Ui.log (GeneratorNext "executeProposal") ;;;
         Ui.await (first_next world) ;;;
         Ui.set_action2InProgress ProgressNull ;;;
         Ui.add_pendingCount 1 ;;;
         Ui.log (GeneratorNext "executeProposal") ;;;
         Ui.await (second_next world) ;;;
         Ui.log Notified ;;;
         Ui.add_pendingCount (-1) ;;;
         Ui.log (Slept 3000) ;;;
         updateDetails)
        (fun _ =>
           Ui.add_pendingCount (-1) ;;;
           Ui.set_action2InProgress ProgressNull).

End WithProps.

End Actions.

(* ================================================================= *)
(** ** Further vocabulary and snapshots *)

(** The reads of [getBondDetails], in the order they are issued. *)
Definition bondReads (web3Account token moduleAddress : string) : list Call :=
  [Module_collateral moduleAddress; Erc20_symbol token; Erc20_decimals token]
  ++ (if Js.truthy_string web3Account
      then [Erc20_allowance token web3Account moduleAddress;
            Erc20_balanceOf token web3Account]
      else []).

(** The [getRequest] read issued for one oracle event. *)
Definition getRequestRead (optimisticOracle : string) (event : ProposePriceEvent)
    : Call :=
  Oracle_getRequest optimisticOracle (pp_requester event) (pp_identifier event)
    (pp_timestamp event) (pp_ancillaryData event).

Definition isAllowanceOrBalanceRead (c : Call) : bool :=
  match c with
  | Erc20_allowance _ _ _ | Erc20_balanceOf _ _ => true
  | _ => false
  end.

Module Scenario.

(** The bond is set and the account has approved nothing. *)
Definition unapprovedChain : Chain :=
  Sample.chainOf (2 * 10 ^ 18) 0 0 [] Sample.settledRequest [] [].

(** A small bond (six-decimal token) with a smaller allowance. *)
Definition smallBondChain : Chain :=
  Sample.chainOf 1500000000 1000000000 0 [] Sample.settledRequest [] [].

(** An explanation that is not UTF-8 for the library below. *)
Definition brokenExplanation : string := String (Ascii.ascii_of_nat 255) "".

(** As [Sample.lib], with a decoder that rejects [brokenExplanation]. *)
Definition strictLib : Ethers :=
  {| keccak256 := keccak256 Sample.lib;
     isAddress := isAddress Sample.lib;
     abi_encode := abi_encode Sample.lib;
     toUtf8String := fun b =>
       if String.eqb b brokenExplanation then None else Some b |}.

(** A library that shares no function with [Sample.lib]: another digest,
    another encoding, no valid address and no decodable explanation. *)
Definition otherLib : Ethers :=
  {| keccak256 := fun b => ("0x" ++ b)%string;
     isAddress := fun _ => false;
     abi_encode := fun _ => "";
     toUtf8String := fun _ => None |}.

(** Another proposal of the module logged an undecodable explanation. *)
Definition poisonedChain : Chain :=
  Sample.chainOf (2 * 10 ^ 18) (2 * 10 ^ 18) 1700000000 [Sample.event1]
    Sample.settledRequest
    [{| tp_explanation := brokenExplanation; tp_proposalTime := 1600000000 |};
     Sample.proposed1]
    [].

(** As [Sample.duplicateChain], but the oracle does not answer
    [getRequest]. *)
Definition silentOracleChain : Chain :=
  {| rpc_multicall := rpc_multicall Sample.duplicateChain;
     rpc_collateral := rpc_collateral Sample.duplicateChain;
     rpc_symbol := rpc_symbol Sample.duplicateChain;
     rpc_decimals := rpc_decimals Sample.duplicateChain;
     rpc_allowance := rpc_allowance Sample.duplicateChain;
     rpc_balanceOf := rpc_balanceOf Sample.duplicateChain;
     rpc_proposalHashes := rpc_proposalHashes Sample.duplicateChain;
     rpc_ProposePrice := rpc_ProposePrice Sample.duplicateChain;
     rpc_getRequest := fun _ _ _ _ _ => None;
     rpc_TransactionsProposed := rpc_TransactionsProposed Sample.duplicateChain;
     rpc_ProposalExecuted := rpc_ProposalExecuted Sample.duplicateChain;
     Date_now := Date_now Sample.duplicateChain |}.

End Scenario.

(* ================================================================= *)
(** ** Vocabulary and scenarios for the actions *)

Module Outcome.

Section WithWorld.

Context {BatchTransaction : Type} (tuple : BatchTransaction -> Transaction)
        (world : @Actions.World BatchTransaction).

(** [ensureRightNetwork] returns normally. *)
Definition networkOk : bool :=
  match fst (Network.ensureRightNetwork (Actions.chainIdInt world)
               (Actions.networkKnown world) (Actions.wallet world)) with
  | inr _ => true
  | inl _ => false
  end.

(** [getTransactions()] returns. *)
Definition transactionsOk : bool :=
  match Actions.getTransactions tuple (Actions.batches world) with
  | inr _ => true
  | inl _ => false
  end.

(** The generator was obtained and its first [next()] resolved. *)
Definition submitted : bool :=
  Actions.plugin_call world && Actions.first_next world.

(** [approveBond] goes past its first line. *)
Definition approveBondStarts (v : View) : bool :=
  match v_questionDetails v with
  | Some details => Js.truthy_string (oracle details)
  | None => false
  end.

(** What [updateDetails] stores: the new status, or the old one when
    [getTransactions] throws or the plugin rejects. *)
Definition refreshed (old : option ModuleDetailsUma) : option ModuleDetailsUma :=
  match Actions.getTransactions tuple (Actions.batches world) with
  | inr txs =>
      match Actions.getExecutionDetails world txs with
      | Some details => Some details
      | None => old
      end
  | inl _ => old
  end.

End WithWorld.

End Outcome.

Definition isRefresh (e : Effect) : bool :=
  match e with
  | ExecutionDetailsRequested _ => true
  | _ => false
  end.

Definition isNotified (e : Effect) : bool :=
  match e with
  | Notified => true
  | _ => false
  end.

Module Stage.

(** MetaMask does not know chain 137 and still reports chain 1 after the
    requests. *)
Definition metaMaskWithoutPolygon : WalletEnv :=
  {| provider_chainId := Some 1;
     provider_isMetaMask := true;
     window_ethereum := true;
     request_switch := fun _ => Some (Some 4902);
     chainId_after := Some "0x1" |}.

(** MetaMask on chain 1. *)
Definition onMainnet : WalletEnv :=
  {| provider_chainId := Some 1;
     provider_isMetaMask := true;
     window_ethereum := true;
     request_switch := fun _ => None;
     chainId_after := Some "0x1" |}.

End Stage.

(* ================================================================= *)
(** ** oSnap: ContractInteraction.vue *)

Module ContractInteraction.

Section WithLibrary.

(** [FunctionFragment] and [ContractInteractionTransaction]. *)
Context {Method Tx : Type}.

(** The functions the component imports: [name] reads [method.name];
    [getABIWriteFunctions], [createContractInteractionTransaction] and
    [parseAmount] throw where they give [None] or [false]. *)
Record Library := {
  name : Method -> string;
  getABIWriteFunctions : string -> option (list Method);
  createContractInteractionTransaction :
    string -> string -> string -> option Method -> list (option string)
    -> option Tx;
  validateTransaction : Tx -> bool;
  parseAmount : string -> bool
}.

(** The refs of the component and the transactions it has emitted.
    [selectedAbi] is [None] for [undefined]; a parameter is [None] where the
    array has a hole. *)
Record Refs := {
  r_to : string;
  r_selectedAbi : option string;
  r_isAbiValid : bool;
  r_value : string;
  r_isValueValid : bool;
  r_methods : list Method;
  r_selectedMethodName : string;
  r_parameters : list (option string);
  r_emitted : list Tx
}.

Context (lib : Library).

(** The computed [selectedMethod] (lines 39-43). *)
Definition selectedMethod (r : Refs) : option Method :=
  match find (fun method => String.eqb (name lib method) (r_selectedMethodName r))
             (r_methods r) with
  | Some method => Some method
  | None => hd_error (r_methods r)
  end.

Definition emit (t : Tx) (r : Refs) : Refs :=
  {| r_to := r_to r; r_selectedAbi := r_selectedAbi r;
     r_isAbiValid := r_isAbiValid r; r_value := r_value r;
     r_isValueValid := r_isValueValid r; r_methods := r_methods r;
     r_selectedMethodName := r_selectedMethodName r;
     r_parameters := r_parameters r;
     r_emitted := r_emitted r ++ [t] |}.

(** [!x] for a ref or a computed [x] used without [.value]: the ref is an
    object, so the negation is [false] whatever the ref holds. *)
Definition not_ref (held : bool) : bool := false.

(** [!selectedAbi.value]. *)
Definition not_selectedAbi (r : Refs) : bool :=
  match r_selectedAbi r with
  | Some abi => negb (Js.truthy_string abi)
  | None => true
  end.

(** [updateTransaction] (lines 46-64).  The guard negates the refs
    [isValueValid] and [isAbiValid] and the computed [isToValid] themselves;
    only [selectedAbi] is read through [.value]. *)
Definition updateTransaction (r : Refs) : Refs :=
  if not_ref (r_isValueValid r) || not_ref true || not_ref (r_isAbiValid r)
     || not_selectedAbi r
  then r
  else
    match r_selectedAbi r with
    | Some abi =>
        match createContractInteractionTransaction lib (r_to r) (r_value r) abi
                (selectedMethod r) (r_parameters r) with
        | Some transaction =>
            if validateTransaction lib transaction then emit transaction r
            else r
        | None => r
        end
    | None => r
    end.

(** [arr[index] = v]: the array grows, with holes, when [index] is beyond
    its end. *)
Fixpoint assign (arr : list (option string)) (index : nat) (v : string)
    : list (option string) :=
  match index, arr with
  | O, [] => [Some v]
  | O, _ :: rest => Some v :: rest
  | S i, [] => None :: assign [] i v
  | S i, x :: rest => x :: assign rest i v
  end.

Definition updateParameter (index : nat) (v : string) (r : Refs) : Refs :=
  updateTransaction
    {| r_to := r_to r; r_selectedAbi := r_selectedAbi r;
       r_isAbiValid := r_isAbiValid r; r_value := r_value r;
       r_isValueValid := r_isValueValid r; r_methods := r_methods r;
       r_selectedMethodName := r_selectedMethodName r;
       r_parameters := assign (r_parameters r) index v;
       r_emitted := r_emitted r |}.

Definition updateMethod (methodName : string) (r : Refs) : Refs :=
  updateTransaction
    {| r_to := r_to r; r_selectedAbi := r_selectedAbi r;
       r_isAbiValid := r_isAbiValid r; r_value := r_value r;
       r_isValueValid := r_isValueValid r; r_methods := r_methods r;
       r_selectedMethodName := methodName;
       r_parameters := [];
       r_emitted := r_emitted r |}.

Definition set_abi (abi : string) (fs : list Method) (valid : bool) (r : Refs)
    : Refs :=
  {| r_to := r_to r; r_selectedAbi := Some abi;
     r_isAbiValid := valid; r_value := r_value r;
     r_isValueValid := r_isValueValid r; r_methods := fs;
     r_selectedMethodName := r_selectedMethodName r;
     r_parameters := r_parameters r;
     r_emitted := r_emitted r |}.

Definition set_isAbiValid (valid : bool) (r : Refs) : Refs :=
  {| r_to := r_to r; r_selectedAbi := r_selectedAbi r;
     r_isAbiValid := valid; r_value := r_value r;
     r_isValueValid := r_isValueValid r; r_methods := r_methods r;
     r_selectedMethodName := r_selectedMethodName r;
     r_parameters := r_parameters r;
     r_emitted := r_emitted r |}.

(** [updateAbi] (lines 77-90).  [methods.value[0].name] throws for an empty
    array, inside the [try]. *)
Definition updateAbi (newAbi : string) (r : Refs) : Refs :=
  updateTransaction
    match getABIWriteFunctions lib newAbi with
    | Some fs =>
        match fs with
        | first :: _ =>
            updateMethod (name lib first) (set_abi newAbi fs true r)
        | [] => set_abi newAbi fs false r
        end
    | None => set_abi newAbi [] false r
    end.

(** [updateValue] (lines 110-119). *)
Definition updateValue (newValue : string) (r : Refs) : Refs :=
  updateTransaction
    {| r_to := r_to r; r_selectedAbi := r_selectedAbi r;
       r_isAbiValid := r_isAbiValid r; r_value := newValue;
       r_isValueValid := parseAmount lib newValue;
       r_methods := r_methods r;
       r_selectedMethodName := r_selectedMethodName r;
       r_parameters := r_parameters r;
       r_emitted := r_emitted r |}.

(** The same refs with other validity flags. *)
Definition withFlags (abiValid valueValid : bool) (r : Refs) : Refs :=
  {| r_to := r_to r; r_selectedAbi := r_selectedAbi r;
     r_isAbiValid := abiValid; r_value := r_value r;
     r_isValueValid := valueValid; r_methods := r_methods r;
     r_selectedMethodName := r_selectedMethodName r;
     r_parameters := r_parameters r;
     r_emitted := r_emitted r |}.

(** The same refs with another value. *)
Definition withValue (newValue : string) (r : Refs) : Refs :=
  {| r_to := r_to r; r_selectedAbi := r_selectedAbi r;
     r_isAbiValid := r_isAbiValid r; r_value := newValue;
     r_isValueValid := r_isValueValid r; r_methods := r_methods r;
     r_selectedMethodName := r_selectedMethodName r;
     r_parameters := r_parameters r;
     r_emitted := r_emitted r |}.

End WithLibrary.

(** A library over strings: two write functions, every transaction
    accepted, amounts valid when they are not empty. *)
Definition sampleLibrary : @Library string string :=
  {| name := fun m => m;
     getABIWriteFunctions := fun abi =>
       if String.eqb abi "[]" then Some [] else Some ["approve"; "transfer"];
     createContractInteractionTransaction := fun to value abi method parameters =>
       match method with
       | Some m => Some (to ++ "." ++ m ++ ":" ++ value)%string
       | None => None
       end;
     validateTransaction := fun _ => true;
     parseAmount := fun s => Js.truthy_string s |}.

Definition initial : @Refs string string :=
  {| r_to := "0x6B175474E89094C44Da98b954EedeAC495271d0F";
     r_selectedAbi := None;
     r_isAbiValid := true;
     r_value := "0";
     r_isValueValid := true;
     r_methods := [];
     r_selectedMethodName := "";
     r_parameters := [];
     r_emitted := [] |}.

End ContractInteraction.

(* ================================================================= *)
(** ** Facts about the JavaScript primitives *)

Section JsFacts.

Lemma to_int_proper (z : Z) :
  Z.to_int z <> Decimal.Pos Decimal.Nil /\ Z.to_int z <> Decimal.Neg Decimal.Nil.
Proof.
  destruct z as [|p|p]; simpl; split; try discriminate;
    intros [= H]; exact (DecimalPos.Unsigned.to_uint_nonnil p H).
Qed.

(** Two BigNumbers print the same numeral only when they are equal. *)
Lemma BigNumber_toString_inj (a b : Z) :
  Js.BigNumber_toString a = Js.BigNumber_toString b -> a = b.
Proof.
  unfold Js.BigNumber_toString. intros H.
  apply DecimalZ.to_int_inj.
  destruct (to_int_proper a) as [Ha1 Ha2], (to_int_proper b) as [Hb1 Hb2].
  pose proof (NilZero.isi _ Ha1 Ha2) as Ia.
  pose proof (NilZero.isi _ Hb1 Hb2) as Ib.
  rewrite H in Ia. congruence.
Qed.

Lemma BigNumber_toString_eqb (a b : Z) :
  String.eqb (Js.BigNumber_toString a) (Js.BigNumber_toString b) = (a =? b).
Proof.
  destruct (Z.eqb_spec a b) as [->|Hne].
  - apply String.eqb_refl.
  - apply String.eqb_neq. intros H. apply Hne, BigNumber_toString_inj, H.
Qed.

(** Integers below 2^53 in absolute value are doubles. *)
Lemma Number_exact (z : Z) : Z.abs z < 2 ^ 53 -> Js.Number z = z.
Proof.
  intros H. unfold Js.Number.
  destruct (Z.ltb_spec (Z.abs z) (2 ^ 53)); [reflexivity | lia].
Qed.

Lemma includes_In (arr : list string) (x : string) :
  Js.includes arr x = true <-> In x arr.
Proof.
  unfold Js.includes. rewrite existsb_exists. split.
  - intros (y & Hy & E). apply String.eqb_eq in E. now subst.
  - intros H. exists x. split; [exact H | apply String.eqb_refl].
Qed.

End JsFacts.

(* ================================================================= *)
(** ** The state shown to the user *)

Section QuestionStateFacts.

Import HandleOutcome.

Variables (account : string) (details : ModuleDetailsUma).
Hypothesis connected : Js.truthy_string account = true.

(** With a wallet and a loaded status that has a proposal event object,
    the result is decided by the event alone. *)
Lemma questionState_object (e : FullProposalEvent) :
  proposalEvent details = PEObject e ->
  questionState account false (Some details) =
    if isExpired e && negb (isSettled e) then proposalApproved
    else if isSettled e && negb (isDisputed e) then proposalApproved
    else if isSettled e then completelyExecuted
    else if isDisputed e && match resolvedPrice e with Some _ => false | None => true end
    then waitingForProposal
    else if isDisputed e && match resolvedPrice e with
                            | Some z => Js.Number z =? 0
                            | None => false
                            end
    then proposalRejected
    else error.
Proof.
  intros E. unfold questionState. rewrite connected, E. reflexivity.
Qed.

(** The flag [proposalExecuted] of the status is never read. *)
Lemma questionState_settled_undisputed (e : FullProposalEvent) :
  proposalEvent details = PEObject e ->
  isSettled e = true -> isDisputed e = false ->
  questionState account false (Some details) = proposalApproved.
Proof.
  intros E Hs Hd. rewrite (questionState_object e E), Hs, Hd.
  now rewrite andb_false_r.
Qed.

Lemma questionState_undefined :
  proposalEvent details = PEUndefined ->
  questionState account false (Some details) = waitingForProposal.
Proof.
  intros E. unfold questionState. now rewrite connected, E.
Qed.

End QuestionStateFacts.

(** C1 (evaluation at the failing input).  The snapshot [executedChain] holds
    a proposal that was settled without a dispute and then executed.
    [getModuleDetailsUma] returns a status with [isSettled = true],
    [isDisputed = false] and [proposalExecuted = true]; [questionState] maps
    it to [proposalApproved], not to [completelyExecuted]. *)
Theorem C1_settled_undisputed_executed_reads_approved :
  exists st e tr,
    Async.run (UmaModule.getModuleDetailsUma Sample.lib Sample.executedChain
                 Sample.account Sample.network Sample.moduleAddress
                 Sample.explanation (Some [Sample.tx1])) = (inr st, tr)
    /\ proposalEvent st = PEObject e
    /\ isSettled e = true /\ isDisputed e = false
    /\ proposalExecuted st = true
    /\ HandleOutcome.questionState Sample.account false (Some st)
       = HandleOutcome.proposalApproved.
Proof.
  eexists; eexists; eexists.
  split; [vm_compute; reflexivity|].
  repeat split; reflexivity.
Qed.

(** C7.  A disputed proposal event that is neither settled nor expired, seen
    with a connected wallet once loading is over: a resolved price that is
    the BigNumber zero gives [proposalRejected]; an undefined resolved price
    gives [waitingForProposal]. *)
Theorem C7_disputed_rejected_or_waiting
    (account : string) (details : ModuleDetailsUma) (e : FullProposalEvent) :
  Js.truthy_string account = true ->
  proposalEvent details = PEObject e ->
  isDisputed e = true ->
  isExpired e && negb (isSettled e) = false ->
  isSettled e = false ->
  (resolvedPrice e = Some 0 ->
     HandleOutcome.questionState account false (Some details)
     = HandleOutcome.proposalRejected)
  /\ (resolvedPrice e = None ->
     HandleOutcome.questionState account false (Some details)
     = HandleOutcome.waitingForProposal).
Proof.
  intros Hacc E Hd Hexp Hs.
  rewrite (questionState_object account details Hacc e E), Hexp, Hs, Hd.
  split; intros ->; reflexivity.
Qed.

Lemma C7_witness :
  (HandleOutcome.questionState Sample.account false
     (Some (Sample.statusWith (PEObject (Sample.eventWith false true false (Some 0)))))
   = HandleOutcome.proposalRejected)
  /\ (HandleOutcome.questionState Sample.account false
        (Some (Sample.statusWith (PEObject (Sample.eventWith false true false None))))
      = HandleOutcome.waitingForProposal).
Proof.
  split.
  - apply (C7_disputed_rejected_or_waiting Sample.account
             (Sample.statusWith (PEObject (Sample.eventWith false true false (Some 0))))
             (Sample.eventWith false true false (Some 0)));
      reflexivity.
  - apply (C7_disputed_rejected_or_waiting Sample.account
             (Sample.statusWith (PEObject (Sample.eventWith false true false None)))
             (Sample.eventWith false true false None));
      reflexivity.
Defined.

(** C10.  Whatever the wallet, the loading flag and the status are,
    [questionState] returns one of [error], [noWalletConnection], [loading],
    [waitingForProposal], [proposalApproved], [proposalRejected] and
    [completelyExecuted]; each of the seven is returned for some input, and
    [disputedButNotResolved] and [disputedResolvedValid] are returned for
    none. *)
Theorem C10_questionState_range :
  (forall account isLoading questionDetails,
      In (HandleOutcome.questionState account isLoading questionDetails)
         [HandleOutcome.error; HandleOutcome.noWalletConnection;
          HandleOutcome.loading; HandleOutcome.waitingForProposal;
          HandleOutcome.proposalApproved; HandleOutcome.proposalRejected;
          HandleOutcome.completelyExecuted])
  /\ (forall s,
        In s [HandleOutcome.error; HandleOutcome.noWalletConnection;
              HandleOutcome.loading; HandleOutcome.waitingForProposal;
              HandleOutcome.proposalApproved; HandleOutcome.proposalRejected;
              HandleOutcome.completelyExecuted] ->
        exists account isLoading questionDetails,
          HandleOutcome.questionState account isLoading questionDetails = s)
  /\ (forall account isLoading questionDetails,
        HandleOutcome.questionState account isLoading questionDetails
          <> HandleOutcome.disputedButNotResolved
        /\ HandleOutcome.questionState account isLoading questionDetails
          <> HandleOutcome.disputedResolvedValid).
Proof.
  assert (R : forall account isLoading questionDetails,
      In (HandleOutcome.questionState account isLoading questionDetails)
         [HandleOutcome.error; HandleOutcome.noWalletConnection;
          HandleOutcome.loading; HandleOutcome.waitingForProposal;
          HandleOutcome.proposalApproved; HandleOutcome.proposalRejected;
          HandleOutcome.completelyExecuted]).
  { intros account isLoading questionDetails.
    unfold HandleOutcome.questionState.
    destruct (negb (Js.truthy_string account)); [simpl; tauto|].
    destruct isLoading; [simpl; tauto|].
    destruct questionDetails as [details|]; [|simpl; tauto].
    destruct (proposalEvent details) as [| |e]; cbv zeta; [simpl; tauto| |].
    all: repeat match goal with
                | |- In (if ?b then _ else _) _ => destruct b
                end; simpl; tauto. }
  split; [exact R|]. split.
  - intros s Hs. simpl in Hs.
    destruct Hs as [<-|[<-|[<-|[<-|[<-|[<-|[<-|[]]]]]]]].
    + exists Sample.account, false, None. reflexivity.
    + exists "", false, None. reflexivity.
    + exists Sample.account, true, None. reflexivity.
    + exists Sample.account, false, (Some (Sample.statusWith PEUndefined)).
      reflexivity.
    + exists Sample.account, false,
        (Some (Sample.statusWith (PEObject (Sample.eventWith true false false None)))).
      reflexivity.
    + exists Sample.account, false,
        (Some (Sample.statusWith (PEObject (Sample.eventWith false true false (Some 0))))).
      reflexivity.
    + exists Sample.account, false,
        (Some (Sample.statusWith (PEObject (Sample.eventWith false true true (Some 0))))).
      reflexivity.
  - intros account isLoading questionDetails.
    specialize (R account isLoading questionDetails). simpl in R.
    split; intros E; rewrite E in R; intuition discriminate.
Qed.

(* ================================================================= *)
(** ** Inversion of asynchronous computations *)

Section AsyncFacts.

Context {A B : Type}.

Lemma bind_inr (m : Async.t A) (k : A -> Async.t B) tr b tr' :
  Async.bind m k tr = (inr b, tr') ->
  exists a tr1, m tr = (inr a, tr1) /\ k a tr1 = (inr b, tr').
Proof.
  unfold Async.bind. destruct (m tr) as [[e|a] tr1]; intros H.
  - discriminate.
  - now exists a, tr1.
Qed.

Lemma call_inr (c : Call) (answer : option A) tr a tr' :
  Async.call c answer tr = (inr a, tr') ->
  answer = Some a /\ tr' = tr ++ [c].
Proof.
  unfold Async.call. destruct answer; intros [= <- <-]; auto.
Qed.

Lemma lift_inr (r : Exn + A) tr a tr' :
  Async.lift r tr = (inr a, tr') -> r = inr a /\ tr' = tr.
Proof. unfold Async.lift. intros [= -> <-]; auto. Qed.

Lemma ret_inr (x : A) tr a tr' :
  Async.ret x tr = (inr a, tr') -> x = a /\ tr' = tr.
Proof. unfold Async.ret. intros [= -> <-]; auto. Qed.

(** A fulfilled [Promise.all]: every element was fulfilled, in order. *)
Lemma Promise_all_map_inr (f : A -> Async.t B) (arr : list A) :
  forall tr bs tr',
    Async.Promise_all_map f arr tr = (inr bs, tr') ->
    Forall2 (fun x b => exists t1 t2, f x t1 = (inr b, t2)) arr bs.
Proof.
  induction arr as [|x xs IH]; intros tr bs tr'; simpl.
  - unfold Async.ret. intros [= <- <-]. constructor.
  - destruct (f x tr) as [r tr1] eqn:Ef.
    destruct (Async.Promise_all_map f xs tr1) as [rs tr2] eqn:Er.
    destruct r as [e|b]; [discriminate|].
    destruct rs as [e|bs']; [discriminate|].
    intros [= <- <-]. constructor.
    + now exists tr, tr1.
    + eapply IH; eassumption.
Qed.

(** When every element is fulfilled from every trace, so is the whole. *)
Lemma Promise_all_map_returns (f : A -> Async.t B) (arr : list A) :
  (forall x tr, exists b tr', f x tr = (inr b, tr')) ->
  forall tr, exists bs tr', Async.Promise_all_map f arr tr = (inr bs, tr').
Proof.
  intros Hf. induction arr as [|x xs IH]; intros tr; simpl.
  - now exists [], tr.
  - destruct (Hf x tr) as (b & tr1 & ->).
    destruct (IH tr1) as (bs & tr2 & ->).
    now exists (b :: bs), tr2.
Qed.

End AsyncFacts.

(* ================================================================= *)
(** ** What a returned status was computed from *)

Section EngineFacts.

Import UmaModule.

Context (lib : Ethers) (chain : Chain) (web3Account : string).

Ltac invert_bind H :=
  let a := fresh "a" in
  let t := fresh "t" in
  let H1 := fresh "Step" in
  apply bind_inr in H; destruct H as (a & t & H1 & H).

Lemma getBondDetails_inr moduleAddress tr bd tr' :
  getBondDetails chain web3Account moduleAddress tr = (inr bd, tr') ->
  exists token,
    rpc_collateral chain moduleAddress = Some token
    /\ bi_collateral bd = token
    /\ allowanceRead chain web3Account token moduleAddress
       = Some (currentUserBondAllowance bd).
Proof.
  unfold getBondDetails, allowanceRead. intros H.
  invert_bind H. apply call_inr in Step as [Hc ->].
  invert_bind H. apply call_inr in Step as [Hs ->].
  invert_bind H. apply call_inr in Step as [Hd ->].
  invert_bind H. invert_bind H.
  apply ret_inr in H as [<- _]. simpl.
  exists a. split; [exact Hc|]. split; [reflexivity|].
  destruct (Js.truthy_string web3Account).
  - apply call_inr in Step as [Ha _]. exact Ha.
  - apply ret_inr in Step as [<- _]. reflexivity.
Qed.

Lemma requestOf_inr optimisticOracle hash event tr full tr' :
  requestOf chain optimisticOracle hash event tr = (inr full, tr') ->
  exists result,
    rpc_getRequest chain optimisticOracle (pp_requester event)
      (pp_identifier event) (pp_timestamp event) (pp_ancillaryData event)
    = Some result
    /\ full = fullProposalEvent (Date_now chain) hash event result.
Proof.
  unfold requestOf. intros H.
  invert_bind H. apply call_inr in Step as [Hr _].
  apply ret_inr in H as [<- _]. now exists a.
Qed.

(** The bond check of any returned status. *)
Lemma getModuleDetailsUma_bond network moduleAddress explanation transactions st tr :
  Async.run (getModuleDetailsUma lib chain web3Account network moduleAddress
               explanation transactions) = (inr st, tr) ->
  exists md,
    rpc_multicall chain network moduleAddress = Some md
    /\ minimumBond st = mc_bondAmount md
    /\ allowanceRead chain web3Account (collateral st) moduleAddress
       = Some (allowance st)
    /\ needsBondApproval st = computeNeedsApproval (minimumBond st) (allowance st).
Proof.
  unfold Async.run, getModuleDetailsUma. intros H.
  invert_bind H. apply call_inr in Step as [Hm _].
  invert_bind H. apply getBondDetails_inr in Step as (token & _ & Ht & Ha).
  exists a. split; [exact Hm|].
  destruct transactions as [txs|].
  - invert_bind H. invert_bind H. invert_bind H. invert_bind H.
    invert_bind H. invert_bind H. invert_bind H. invert_bind H.
    apply ret_inr in H as [<- _]. simpl. rewrite Ht. auto.
  - apply ret_inr in H as [<- _]. simpl. rewrite Ht. auto.
Qed.

(** The correlation part of a status returned for a batch. *)
Lemma getModuleDetailsUma_inr network moduleAddress explanation txs st tr :
  Async.run (getModuleDetailsUma lib chain web3Account network moduleAddress
               explanation (Some txs)) = (inr st, tr) ->
  exists md hash ts events fulls tps proposed execs,
    rpc_multicall chain network moduleAddress = Some md
    /\ computeProposalHash lib txs = inr hash
    /\ rpc_proposalHashes chain moduleAddress hash = Some ts
    /\ rpc_ProposePrice chain (mc_optimisticOracle md) moduleAddress = Some events
    /\ Forall2
         (fun event full =>
            exists result,
              rpc_getRequest chain (mc_optimisticOracle md) (pp_requester event)
                (pp_identifier event) (pp_timestamp event)
                (pp_ancillaryData event) = Some result
              /\ full = fullProposalEvent (Date_now chain) hash event result)
         (thisModuleProposalEvent (computeAncillaryData hash) ts events) fulls
    /\ rpc_TransactionsProposed chain moduleAddress = Some tps
    /\ thisProposalTransactionsProposedEvents lib explanation tps = inr proposed
    /\ rpc_ProposalExecuted chain moduleAddress hash = Some execs
    /\ noTransactions st = false
    /\ activeProposal st = (0 <? ts)
    /\ proposalEvent st = first fulls
    /\ proposalExecuted st = computeProposalExecuted proposed execs.
Proof.
  unfold Async.run, getModuleDetailsUma. intros H.
  invert_bind H. apply call_inr in Step as [Hm _].
  invert_bind H. clear Step.
  invert_bind H. apply lift_inr in Step as [Hh _].
  invert_bind H. clear Step.
  invert_bind H. apply call_inr in Step as [Hts _].
  invert_bind H. apply call_inr in Step as [Hev _].
  invert_bind H. apply Promise_all_map_inr in Step.
  invert_bind H. apply call_inr in Step0 as [Htp _].
  invert_bind H. apply lift_inr in Step0 as [Hpr _].
  invert_bind H. apply call_inr in Step0 as [Hex _].
  apply ret_inr in H as [<- _]. simpl.
  do 8 eexists.
  repeat (split; [eassumption || reflexivity|]).
  split.
  - eapply Forall2_impl; [|exact Step].
    intros event full (u1 & u2 & Hreq).
    eapply requestOf_inr; exact Hreq.
  - repeat (split; [eassumption || reflexivity|]). reflexivity.
Qed.

End EngineFacts.

(* ================================================================= *)
(** ** The two joins: oracle events and execution times *)

Section JoinFacts.

Import UmaModule.

Lemma matchesProposal_true ancillaryData ts event :
  matchesProposal ancillaryData ts event = true <->
  pp_ancillaryData event = ancillaryData /\ pp_timestamp event = ts.
Proof.
  unfold matchesProposal.
  rewrite andb_true_iff, String.eqb_eq, BigNumber_toString_eqb, Z.eqb_eq.
  tauto.
Qed.

Lemma thisModuleProposalEvent_In ancillaryData ts events event :
  In event (thisModuleProposalEvent ancillaryData ts events) <->
  In event events
  /\ pp_ancillaryData event = ancillaryData /\ pp_timestamp event = ts.
Proof.
  unfold thisModuleProposalEvent.
  rewrite filter_In, matchesProposal_true. tauto.
Qed.

(** The kept [TransactionsProposed] events are those whose explanation
    decodes to the given one. *)
Lemma thisProposalTransactionsProposedEvents_In lib explanation events :
  forall kept,
    thisProposalTransactionsProposedEvents lib explanation events = inr kept ->
    forall event,
      In event kept <->
      In event events
      /\ toUtf8String lib (tp_explanation event) = Some explanation.
Proof.
  induction events as [|e rest IH]; simpl; intros kept H event.
  - injection H as <-. simpl. tauto.
  - destruct (toUtf8String lib (tp_explanation e)) as [s|] eqn:Es;
      [|discriminate].
    destruct (thisProposalTransactionsProposedEvents lib explanation rest)
      as [x|kept'] eqn:Er; [discriminate|].
    injection H as <-. specialize (IH kept' eq_refl event).
    destruct (String.eqb_spec s explanation) as [->|Hne]; simpl; rewrite IH.
    + split.
      * intros [<-|[Hin Hd]]; auto.
      * intros [[<-|Hin] Hd]; auto.
    + split.
      * intros [Hin Hd]; auto.
      * intros [[<-|Hin] Hd]; auto. congruence.
Qed.

Lemma thisProposalTransactionsProposedEvents_returns lib explanation events :
  (forall event, In event events ->
                 toUtf8String lib (tp_explanation event) <> None) ->
  exists kept,
    thisProposalTransactionsProposedEvents lib explanation events = inr kept.
Proof.
  induction events as [|e rest IH]; simpl; intros H.
  - now exists [].
  - destruct (toUtf8String lib (tp_explanation e)) as [s|] eqn:Es.
    + destruct IH as (kept & ->); [intros; apply H; auto|]. eauto.
    + exfalso. apply (H e); auto.
Qed.

(** [proposalExecuted] is the non-emptiness of the intersection of the two
    sets of proposal times. *)
Lemma computeProposalExecuted_true proposed executionEvents :
  computeProposalExecuted proposed executionEvents = true <->
  exists p x,
    In p proposed /\ In x executionEvents
    /\ tp_proposalTime p = pe_proposalTime x.
Proof.
  unfold computeProposalExecuted, Js.some.
  rewrite existsb_exists. split.
  - intros (time & Hin & Hinc).
    apply in_map_iff in Hin as (p & <- & Hp).
    apply includes_In, in_map_iff in Hinc as (x & Hx & Hxin).
    exists p, x. repeat split; auto.
    symmetry. apply BigNumber_toString_inj, Hx.
  - intros (p & x & Hp & Hx & E).
    exists (Js.BigNumber_toString (tp_proposalTime p)). split.
    + apply in_map_iff. now exists p.
    + apply includes_In, in_map_iff. exists x. split; [now rewrite E|auto].
Qed.

(** The bond check on amounts that are doubles. *)
Lemma computeNeedsApproval_exact bond currentAllowance :
  0 <= bond < 2 ^ 53 -> 0 <= currentAllowance < 2 ^ 53 ->
  (computeNeedsApproval bond currentAllowance = true <->
   0 < bond /\ currentAllowance < bond).
Proof.
  intros Hb Ha. unfold computeNeedsApproval.
  rewrite !Number_exact by lia.
  rewrite andb_true_iff, !Z.ltb_lt. tauto.
Qed.

(** An allowance equal to the bond never asks for an approval. *)
Lemma computeNeedsApproval_same bond :
  computeNeedsApproval bond bond = false.
Proof.
  unfold computeNeedsApproval. rewrite Z.ltb_irrefl. apply andb_false_r.
Qed.

End JoinFacts.

(* ================================================================= *)
(** ** Which reads are issued, and when the function returns *)

Section TraceFacts.

Import UmaModule.

Context (lib : Ethers) (chain : Chain) (web3Account : string).

(** [getBondDetails] issues configuration reads only, and returns when no
    read fails. *)
Lemma getBondDetails_spec moduleAddress tr :
  exists r l,
    getBondDetails chain web3Account moduleAddress tr = (r, tr ++ l)
    /\ configOnly l = true
    /\ (answers chain -> exists bd, r = inr bd).
Proof.
  unfold getBondDetails, Async.bind, Async.call, Async.ret.
  destruct (rpc_collateral chain moduleAddress) as [token|] eqn:Ec.
  2:{ exists (inl RpcFailure), [Module_collateral moduleAddress].
      repeat split; auto. intros A. exfalso. now apply A in Ec. }
  destruct (rpc_symbol chain token) as [sym|] eqn:Es.
  2:{ exists (inl RpcFailure), [Module_collateral moduleAddress; Erc20_symbol token].
      rewrite <- !app_assoc. repeat split; auto.
      intros A. exfalso. now apply A in Es. }
  destruct (rpc_decimals chain token) as [dec|] eqn:Ed.
  2:{ exists (inl RpcFailure),
        [Module_collateral moduleAddress; Erc20_symbol token; Erc20_decimals token].
      rewrite <- !app_assoc. repeat split; auto.
      intros A. exfalso. now apply A in Ed. }
  destruct (Js.truthy_string web3Account).
  - destruct (rpc_allowance chain token web3Account moduleAddress) as [al|] eqn:Ea.
    2:{ eexists (inl RpcFailure), [_; _; _; _].
        rewrite <- !app_assoc. repeat split; auto.
        intros A. exfalso. now apply A in Ea. }
    destruct (rpc_balanceOf chain token web3Account) as [bal|] eqn:Eb.
    2:{ eexists (inl RpcFailure), [_; _; _; _; _].
        rewrite <- !app_assoc. repeat split; auto.
        intros A. exfalso. now apply A in Eb. }
    eexists (inr _), [_; _; _; _; _].
    rewrite <- !app_assoc. repeat split; eauto.
  - eexists (inr _), [_; _; _].
    rewrite <- !app_assoc. repeat split; eauto.
Qed.

(** The branch for [transactions === undefined]. *)
Lemma undefined_batch_spec network moduleAddress explanation :
  exists r l,
    Async.run (getModuleDetailsUma lib chain web3Account network moduleAddress
                 explanation None)
    = (r, Multicall network moduleAddress :: l)
    /\ configOnly l = true
    /\ (forall st, r = inr st ->
          noTransactions st = true /\ activeProposal st = false
          /\ proposalExecuted st = false /\ proposalEvent st = PEEmptyObject)
    /\ (answers chain -> exists st, r = inr st).
Proof.
  unfold Async.run, getModuleDetailsUma.
  unfold Async.bind at 1. unfold Async.call at 1. simpl app.
  destruct (rpc_multicall chain network moduleAddress) as [md|] eqn:Em.
  2:{ exists (inl RpcFailure), []. repeat split; auto; try discriminate.
      intros A. exfalso. now apply A in Em. }
  unfold Async.bind.
  destruct (getBondDetails_spec moduleAddress [Multicall network moduleAddress])
    as (r & l & -> & Hl & Hr).
  destruct r as [e|bd].
  - exists (inl e), l. repeat split; auto; try discriminate.
    intros A. destruct (Hr A) as (bd & [=]).
  - unfold Async.ret. eexists (inr _), l.
    split; [reflexivity|]. split; [exact Hl|]. split.
    + intros st [= <-]. simpl. auto.
    + eauto.
Qed.

Lemma computeProposalHash_malformed txs tx :
  In tx txs -> isAddress lib (to tx) = false ->
  computeProposalHash lib txs = inl InvalidArgument.
Proof.
  intros Hin Hbad. unfold computeProposalHash, defaultAbiCoder_encode.
  destruct (forallb (wellFormed lib) txs) eqn:F; [|reflexivity].
  rewrite forallb_forall in F. specialize (F tx Hin).
  unfold wellFormed in F. now rewrite Hbad in F.
Qed.

(** A batch the coder rejects: the configuration and the bond are read
    first, nothing is read afterwards, and no status is returned. *)
Lemma rejected_batch_spec network moduleAddress explanation txs :
  computeProposalHash lib txs = inl InvalidArgument ->
  exists e l,
    Async.run (getModuleDetailsUma lib chain web3Account network moduleAddress
                 explanation (Some txs))
    = (inl e, Multicall network moduleAddress :: l)
    /\ configOnly l = true
    /\ (answers chain -> e = InvalidArgument).
Proof.
  intros Hh. unfold Async.run, getModuleDetailsUma.
  unfold Async.bind at 1. unfold Async.call at 1. simpl app.
  destruct (rpc_multicall chain network moduleAddress) as [md|] eqn:Em.
  2:{ exists RpcFailure, []. repeat split; auto.
      intros A. exfalso. now apply A in Em. }
  unfold Async.bind at 1.
  destruct (getBondDetails_spec moduleAddress [Multicall network moduleAddress])
    as (r & l & -> & Hl & Hr).
  destruct r as [e|bd].
  - exists e, l. repeat split; auto.
    intros A. destruct (Hr A) as (bd & [=]).
  - unfold Async.bind at 1. unfold Async.lift. rewrite Hh.
    exists InvalidArgument, l. repeat split; auto.
Qed.

(** Without a batch a status is returned exactly when the configuration and
    the bond answer; no other read is consulted. *)
Lemma undefined_batch_returns_iff network moduleAddress explanation r tr :
  Async.run (getModuleDetailsUma lib chain web3Account network moduleAddress
               explanation None) = (r, tr) ->
  (exists st, r = inr st)
  <-> configAnswers chain web3Account network moduleAddress = true.
Proof.
  unfold Async.run, getModuleDetailsUma, getBondDetails, configAnswers, isSome,
    Async.bind, Async.call, Async.ret.
  destruct (rpc_multicall chain network moduleAddress) as [md|];
    [|intros [= <- _]; split; [intros [st [=]]|discriminate]].
  destruct (rpc_collateral chain moduleAddress) as [token|];
    [|intros [= <- _]; split; [intros [st [=]]|discriminate]].
  destruct (rpc_symbol chain token) as [sym|];
    [|intros [= <- _]; split; [intros [st [=]]|discriminate]].
  destruct (rpc_decimals chain token) as [dec|];
    [|intros [= <- _]; split; [intros [st [=]]|discriminate]].
  destruct (Js.truthy_string web3Account);
    [|intros [= <- _]; split; [reflexivity|eauto]].
  destruct (rpc_allowance chain token web3Account moduleAddress) as [al|];
    [|intros [= <- _]; split; [intros [st [=]]|discriminate]].
  destruct (rpc_balanceOf chain token web3Account) as [bal|];
    [|intros [= <- _]; split; [intros [st [=]]|discriminate]].
  intros [= <- _]. split; [reflexivity|eauto].
Qed.

(** A batch the coder rejects, on a snapshot whose configuration and bond
    answer: the reads are exactly the [multicall] and the bond reads, and
    the error is the coder's. *)
Lemma rejected_batch_exact network moduleAddress explanation txs :
  computeProposalHash lib txs = inl InvalidArgument ->
  configAnswers chain web3Account network moduleAddress = true ->
  exists token,
    rpc_collateral chain moduleAddress = Some token
    /\ Async.run (getModuleDetailsUma lib chain web3Account network
                    moduleAddress explanation (Some txs))
       = (inl InvalidArgument,
          Multicall network moduleAddress
            :: bondReads web3Account token moduleAddress).
Proof.
  intros Hh. unfold configAnswers, isSome.
  unfold Async.run, getModuleDetailsUma.
  unfold Async.bind at 1. unfold Async.call at 1. simpl app.
  destruct (rpc_multicall chain network moduleAddress) as [md|];
    [|discriminate].
  unfold Async.bind at 1.
  unfold getBondDetails, bondReads, Async.bind, Async.call, Async.ret, Async.lift.
  destruct (rpc_collateral chain moduleAddress) as [token|]; [|discriminate].
  destruct (rpc_symbol chain token) as [sym|]; [|discriminate].
  destruct (rpc_decimals chain token) as [dec|]; [|discriminate].
  destruct (Js.truthy_string web3Account).
  - destruct (rpc_allowance chain token web3Account moduleAddress) as [al|];
      [|discriminate].
    destruct (rpc_balanceOf chain token web3Account) as [bal|]; [|discriminate].
    intros _. exists token. split; [reflexivity|]. rewrite Hh. reflexivity.
  - intros _. exists token. split; [reflexivity|]. rewrite Hh. reflexivity.
Qed.

Lemma requestOf_returns optimisticOracle hash :
  answers chain ->
  forall event tr, exists full tr',
    requestOf chain optimisticOracle hash event tr = (inr full, tr').
Proof.
  intros A event tr. unfold requestOf, Async.bind, Async.call, Async.ret.
  destruct (rpc_getRequest chain optimisticOracle (pp_requester event)
              (pp_identifier event) (pp_timestamp event)
              (pp_ancillaryData event)) eqn:E.
  - eauto.
  - exfalso. now apply A in E.
Qed.

(** When no read fails, the batch encodes and the logged explanations
    decode, a status is returned. *)
Lemma getModuleDetailsUma_returns network moduleAddress explanation txs :
  answers chain -> decodable lib chain ->
  forallb (wellFormed lib) txs = true ->
  exists st tr,
    Async.run (getModuleDetailsUma lib chain web3Account network moduleAddress
                 explanation (Some txs)) = (inr st, tr).
Proof.
  intros A D W. unfold Async.run, getModuleDetailsUma.
  unfold Async.bind at 1. unfold Async.call at 1. simpl app.
  destruct (rpc_multicall chain network moduleAddress) as [md|] eqn:Em;
    [|exfalso; now apply A in Em].
  unfold Async.bind at 1.
  destruct (getBondDetails_spec moduleAddress [Multicall network moduleAddress])
    as (r & l & -> & _ & Hr).
  destruct (Hr A) as (bd & ->).
  unfold Async.bind at 1. unfold Async.lift at 1.
  unfold computeProposalHash, defaultAbiCoder_encode. rewrite W.
  set (hash := keccak256 lib (abi_encode lib txs)).
  unfold Async.bind at 1. unfold Async.call at 1.
  destruct (rpc_proposalHashes chain moduleAddress hash) as [ts|] eqn:Et;
    [|exfalso; now apply A in Et].
  unfold Async.bind at 1. unfold Async.call at 1.
  unfold Async.bind at 1. unfold Async.call at 1.
  destruct (rpc_ProposePrice chain (mc_optimisticOracle md) moduleAddress)
    as [events|] eqn:Ee; [|exfalso; now apply A in Ee].
  unfold Async.bind at 1.
  match goal with
  | |- context [Async.Promise_all_map ?f ?arr ?t] =>
      destruct (Promise_all_map_returns f arr
                  (requestOf_returns (mc_optimisticOracle md) hash A) t)
        as (fulls & tr3 & ->)
  end.
  unfold Async.bind at 1. unfold Async.call at 1.
  destruct (rpc_TransactionsProposed chain moduleAddress) as [tps|] eqn:Ep;
    [|exfalso; now apply A in Ep].
  unfold Async.bind at 1. unfold Async.lift at 1.
  destruct (thisProposalTransactionsProposedEvents_returns lib explanation tps)
    as (kept & ->).
  { intros event Hin. eapply D; eauto. }
  unfold Async.bind at 1. unfold Async.call at 1.
  destruct (rpc_ProposalExecuted chain moduleAddress hash) as [execs|] eqn:Ex;
    [|exfalso; now apply A in Ex].
  unfold Async.ret. eauto.
Qed.

End TraceFacts.

(* ================================================================= *)
(** ** The encoder, the dispute flag and the sample snapshots *)

Section FurtherFacts.

Lemma Sample_answers bond allow proposed events request tps execs :
  answers (Sample.chainOf bond allow proposed events request tps execs).
Proof. repeat split; intros; discriminate. Qed.

Lemma Sample_decodable chain : decodable Sample.lib chain.
Proof. intros a events event _ _. discriminate. Qed.

Lemma computeProposalHash_inr lib txs hash :
  UmaModule.computeProposalHash lib txs = inr hash ->
  forallb (UmaModule.wellFormed lib) txs = true.
Proof.
  unfold UmaModule.computeProposalHash, UmaModule.defaultAbiCoder_encode.
  destruct (forallb (UmaModule.wellFormed lib) txs); [reflexivity|discriminate].
Qed.

(** [isDisputed] is the test of the disputer against the zero address. *)
Lemma fullProposalEvent_isDisputed now hash event result :
  isDisputed (UmaModule.fullProposalEvent now hash event result) = true <->
  rq_disputer result <> UmaModule.zeroAddress.
Proof.
  unfold UmaModule.fullProposalEvent. simpl.
  destruct (String.eqb_spec (rq_disputer result) UmaModule.zeroAddress);
    split; congruence.
Qed.

End FurtherFacts.

(* ================================================================= *)
(** ** Correlation of the oracle events *)

(** C4.  In a status returned for a batch, the oracle events attributed to
    the proposal are the events of the [ProposePrice] query whose ancillary
    data is the one computed from the batch's proposal hash and whose
    timestamp is the module's [proposalHashes] entry for that hash; an event
    that has only one of the two is not in the filtered list, and the
    [proposalEvent] of the status comes from an event that has both. *)
Theorem C4_attribution_needs_both_keys
    lib chain web3Account network moduleAddress explanation txs st tr :
  Async.run (UmaModule.getModuleDetailsUma lib chain web3Account network
               moduleAddress explanation (Some txs)) = (inr st, tr) ->
  exists md hash ts events,
    rpc_multicall chain network moduleAddress = Some md
    /\ UmaModule.computeProposalHash lib txs = inr hash
    /\ rpc_proposalHashes chain moduleAddress hash = Some ts
    /\ rpc_ProposePrice chain (mc_optimisticOracle md) moduleAddress = Some events
    /\ (forall event,
          In event (UmaModule.thisModuleProposalEvent
                      (UmaModule.computeAncillaryData hash) ts events) <->
          In event events
          /\ pp_ancillaryData event = UmaModule.computeAncillaryData hash
          /\ pp_timestamp event = ts)
    /\ (forall full,
          proposalEvent st = PEObject full ->
          exists event result,
            In event events
            /\ pp_ancillaryData event = UmaModule.computeAncillaryData hash
            /\ pp_timestamp event = ts
            /\ rpc_getRequest chain (mc_optimisticOracle md) (pp_requester event)
                 (pp_identifier event) (pp_timestamp event)
                 (pp_ancillaryData event) = Some result
            /\ full = UmaModule.fullProposalEvent (Date_now chain) hash event result).
Proof.
  intros H.
  apply getModuleDetailsUma_inr in H
    as (md & hash & ts & events & fulls & tps & proposed & execs
        & Hm & Hh & Hts & Hev & Hall & _ & _ & _ & _ & _ & Hpe & _).
  exists md, hash, ts, events.
  repeat (split; [assumption|]). split.
  - intros event. apply thisModuleProposalEvent_In.
  - intros full Hfull. rewrite Hpe in Hfull.
    remember (UmaModule.thisModuleProposalEvent
                (UmaModule.computeAncillaryData hash) ts events) as matching
      eqn:Hmat.
    destruct Hall as [|event full' rest fulls' (result & Hr & ->) _];
      [discriminate|].
    injection Hfull as <-.
    assert (Hin : In event (UmaModule.thisModuleProposalEvent
                              (UmaModule.computeAncillaryData hash) ts events)).
    { rewrite <- Hmat. now left. }
    apply thisModuleProposalEvent_In in Hin as (Hin & Ha & Ht).
    exists event, result. auto.
Qed.

Lemma C4_witness :
  exists st tr,
    Async.run (UmaModule.getModuleDetailsUma Sample.lib Sample.duplicateChain
                 Sample.account Sample.network Sample.moduleAddress
                 Sample.explanation (Some [Sample.tx1])) = (inr st, tr)
    /\ exists md hash ts events,
      rpc_multicall Sample.duplicateChain Sample.network Sample.moduleAddress = Some md
      /\ UmaModule.computeProposalHash Sample.lib [Sample.tx1] = inr hash
      /\ rpc_proposalHashes Sample.duplicateChain Sample.moduleAddress hash = Some ts
      /\ rpc_ProposePrice Sample.duplicateChain (mc_optimisticOracle md)
           Sample.moduleAddress = Some events
      /\ (forall event,
            In event (UmaModule.thisModuleProposalEvent
                        (UmaModule.computeAncillaryData hash) ts events) <->
            In event events
            /\ pp_ancillaryData event = UmaModule.computeAncillaryData hash
            /\ pp_timestamp event = ts)
      /\ (forall full,
            proposalEvent st = PEObject full ->
            exists event result,
              In event events
              /\ pp_ancillaryData event = UmaModule.computeAncillaryData hash
              /\ pp_timestamp event = ts
              /\ rpc_getRequest Sample.duplicateChain (mc_optimisticOracle md)
                   (pp_requester event) (pp_identifier event)
                   (pp_timestamp event) (pp_ancillaryData event) = Some result
              /\ full = UmaModule.fullProposalEvent
                          (Date_now Sample.duplicateChain) hash event result).
Proof.
  eexists; eexists. split; [vm_compute; reflexivity|].
  eapply (C4_attribution_needs_both_keys Sample.lib Sample.duplicateChain
            Sample.account Sample.network Sample.moduleAddress
            Sample.explanation [Sample.tx1]).
  vm_compute. reflexivity.
Defined.

(** C9.  When the filtered list of oracle events starts with [firstEvent]
    (and continues with any number of further matching events), the
    [proposalEvent] of the returned status is the record built from
    [firstEvent] and from the oracle request read for it; the records of the
    other matching events are not part of the status. *)
Theorem C9_first_matching_event_is_reported
    lib chain web3Account network moduleAddress explanation txs st tr
    md hash ts events firstEvent others :
  Async.run (UmaModule.getModuleDetailsUma lib chain web3Account network
               moduleAddress explanation (Some txs)) = (inr st, tr) ->
  rpc_multicall chain network moduleAddress = Some md ->
  UmaModule.computeProposalHash lib txs = inr hash ->
  rpc_proposalHashes chain moduleAddress hash = Some ts ->
  rpc_ProposePrice chain (mc_optimisticOracle md) moduleAddress = Some events ->
  UmaModule.thisModuleProposalEvent (UmaModule.computeAncillaryData hash) ts events
  = firstEvent :: others ->
  exists result,
    rpc_getRequest chain (mc_optimisticOracle md) (pp_requester firstEvent)
      (pp_identifier firstEvent) (pp_timestamp firstEvent)
      (pp_ancillaryData firstEvent) = Some result
    /\ proposalEvent st
       = PEObject (UmaModule.fullProposalEvent (Date_now chain) hash firstEvent result).
Proof.
  intros H Hm Hh Hts Hev Hmat.
  apply getModuleDetailsUma_inr in H
    as (md' & hash' & ts' & events' & fulls & tps & proposed & execs
        & Hm' & Hh' & Hts' & Hev' & Hall & _ & _ & _ & _ & _ & Hpe & _).
  rewrite Hm in Hm'. injection Hm' as <-.
  rewrite Hh in Hh'. injection Hh' as <-.
  rewrite Hts in Hts'. injection Hts' as <-.
  rewrite Hev in Hev'. injection Hev' as <-.
  rewrite Hmat in Hall.
  inversion Hall as [|event full rest fulls' (result & Hr & Hfull) _ E1 E2].
  subst. exists result. split; [exact Hr|]. exact Hpe.
Qed.

Lemma C9_witness :
  exists st tr result,
    Async.run (UmaModule.getModuleDetailsUma Sample.lib Sample.duplicateChain
                 Sample.account Sample.network Sample.moduleAddress
                 Sample.explanation (Some [Sample.tx1])) = (inr st, tr)
    /\ UmaModule.thisModuleProposalEvent
         (UmaModule.computeAncillaryData Sample.hash1) 1700000000
         [Sample.staleEvent; Sample.event1; Sample.event2]
       = [Sample.event1; Sample.event2]
    /\ rpc_getRequest Sample.duplicateChain Sample.oracleAddress
         (pp_requester Sample.event1) (pp_identifier Sample.event1)
         (pp_timestamp Sample.event1) (pp_ancillaryData Sample.event1)
       = Some result
    /\ proposalEvent st
       = PEObject (UmaModule.fullProposalEvent (Date_now Sample.duplicateChain)
                     Sample.hash1 Sample.event1 result).
Proof.
  eexists; eexists.
  assert (R : Async.run
                (UmaModule.getModuleDetailsUma Sample.lib Sample.duplicateChain
                   Sample.account Sample.network Sample.moduleAddress
                   Sample.explanation (Some [Sample.tx1]))
              = (inr _, _)) by (vm_compute; reflexivity).
  destruct (C9_first_matching_event_is_reported Sample.lib Sample.duplicateChain
              Sample.account Sample.network Sample.moduleAddress
              Sample.explanation [Sample.tx1] _ _
              {| mc_avatar := Sample.daoAddress;
                 mc_optimisticOracle := Sample.oracleAddress;
                 mc_rules := "ipfs rules";
                 mc_bondAmount := 2 * 10 ^ 18;
                 mc_liveness := 7200 |}
              Sample.hash1 1700000000
              [Sample.staleEvent; Sample.event1; Sample.event2]
              Sample.event1 [Sample.event2]
              R eq_refl eq_refl eq_refl eq_refl eq_refl)
    as (result & Hr & Hpe).
  exists result. repeat split; [exact R | exact Hr | exact Hpe].
Defined.

(* ================================================================= *)
(** ** The executed flag *)

(** C3.  In a status returned for a batch and an explanation,
    [proposalExecuted] is true exactly when some [TransactionsProposed] event
    of the module whose explanation decodes to the given explanation has the
    proposal time of some [ProposalExecuted] event returned by the query
    filtered by the batch's proposal hash. *)
Theorem C3_executed_iff_times_intersect
    lib chain web3Account network moduleAddress explanation txs st tr :
  Async.run (UmaModule.getModuleDetailsUma lib chain web3Account network
               moduleAddress explanation (Some txs)) = (inr st, tr) ->
  exists hash tps execs,
    UmaModule.computeProposalHash lib txs = inr hash
    /\ rpc_TransactionsProposed chain moduleAddress = Some tps
    /\ rpc_ProposalExecuted chain moduleAddress hash = Some execs
    /\ (proposalExecuted st = true <->
        exists p x,
          In p tps
          /\ toUtf8String lib (tp_explanation p) = Some explanation
          /\ In x execs
          /\ tp_proposalTime p = pe_proposalTime x).
Proof.
  intros H.
  apply getModuleDetailsUma_inr in H
    as (md & hash & ts & events & fulls & tps & proposed & execs
        & _ & Hh & _ & _ & _ & Htp & Hpr & Hex & _ & _ & _ & Hexec).
  exists hash, tps, execs. repeat (split; [assumption|]).
  rewrite Hexec, computeProposalExecuted_true. split.
  - intros (p & x & Hp & Hx & E).
    apply (thisProposalTransactionsProposedEvents_In _ _ _ _ Hpr) in Hp
      as [Hp Hd].
    exists p, x. auto.
  - intros (p & x & Hp & Hd & Hx & E).
    exists p, x. split; [|auto].
    apply (thisProposalTransactionsProposedEvents_In _ _ _ _ Hpr). auto.
Qed.

Lemma C3_witness :
  exists st tr,
    Async.run (UmaModule.getModuleDetailsUma Sample.lib Sample.executedChain
                 Sample.account Sample.network Sample.moduleAddress
                 Sample.explanation (Some [Sample.tx1])) = (inr st, tr)
    /\ exists hash tps execs,
      UmaModule.computeProposalHash Sample.lib [Sample.tx1] = inr hash
      /\ rpc_TransactionsProposed Sample.executedChain Sample.moduleAddress = Some tps
      /\ rpc_ProposalExecuted Sample.executedChain Sample.moduleAddress hash = Some execs
      /\ (proposalExecuted st = true <->
          exists p x,
            In p tps
            /\ toUtf8String Sample.lib (tp_explanation p) = Some Sample.explanation
            /\ In x execs
            /\ tp_proposalTime p = pe_proposalTime x).
Proof.
  eexists; eexists. split; [vm_compute; reflexivity|].
  eapply (C3_executed_iff_times_intersect Sample.lib Sample.executedChain
            Sample.account Sample.network Sample.moduleAddress
            Sample.explanation [Sample.tx1]).
  vm_compute. reflexivity.
Defined.

(* ================================================================= *)
(** ** A submitted batch without a matching oracle event *)

(** C2, as stated, fails: in [laggingChain] the module records the batch
    ([proposalHashes] is 1700000000), the oracle query returns no event that
    carries both keys, and the function returns an ordinary status, which
    [questionState] maps to [waitingForProposal]. *)
Lemma C2_counterexample_lagging_oracle :
  exists st tr,
    Async.run (UmaModule.getModuleDetailsUma Sample.lib Sample.laggingChain
                 Sample.account Sample.network Sample.moduleAddress
                 Sample.explanation (Some [Sample.tx1])) = (inr st, tr)
    /\ rpc_proposalHashes Sample.laggingChain Sample.moduleAddress Sample.hash1
       = Some 1700000000
    /\ UmaModule.thisModuleProposalEvent Sample.ancillary1 1700000000
         [Sample.staleEvent] = []
    /\ activeProposal st = true
    /\ proposalEvent st = PEUndefined
    /\ HandleOutcome.questionState Sample.account false (Some st)
       = HandleOutcome.waitingForProposal.
Proof.
  eexists; eexists. split; [vm_compute; reflexivity|].
  repeat split; reflexivity.
Qed.

(** C2, amended.  When no read fails and the logged explanations decode, a
    batch that the module records as proposed and for which no oracle event
    carries both keys yields a returned status with [activeProposal = true]
    and an undefined [proposalEvent]; with a connected wallet and loading
    over, [questionState] maps it to [waitingForProposal]. *)
Theorem C2_unmatched_submission_reads_waiting
    lib chain web3Account network moduleAddress explanation txs
    md hash ts events :
  answers chain -> decodable lib chain ->
  Js.truthy_string web3Account = true ->
  rpc_multicall chain network moduleAddress = Some md ->
  UmaModule.computeProposalHash lib txs = inr hash ->
  rpc_proposalHashes chain moduleAddress hash = Some ts ->
  0 < ts ->
  rpc_ProposePrice chain (mc_optimisticOracle md) moduleAddress = Some events ->
  UmaModule.thisModuleProposalEvent (UmaModule.computeAncillaryData hash) ts events
  = [] ->
  exists st tr,
    Async.run (UmaModule.getModuleDetailsUma lib chain web3Account network
                 moduleAddress explanation (Some txs)) = (inr st, tr)
    /\ activeProposal st = true
    /\ proposalEvent st = PEUndefined
    /\ HandleOutcome.questionState web3Account false (Some st)
       = HandleOutcome.waitingForProposal.
Proof.
  intros A D Hacc Hm Hh Hts Hpos Hev Hmat.
  destruct (getModuleDetailsUma_returns lib chain web3Account network
              moduleAddress explanation txs A D (computeProposalHash_inr _ _ _ Hh))
    as (st & tr & R).
  exists st, tr. split; [exact R|].
  apply getModuleDetailsUma_inr in R
    as (md' & hash' & ts' & events' & fulls & tps & proposed & execs
        & Hm' & Hh' & Hts' & Hev' & Hall & _ & _ & _ & _ & Hact & Hpe & _).
  rewrite Hm in Hm'. injection Hm' as <-.
  rewrite Hh in Hh'. injection Hh' as <-.
  rewrite Hts in Hts'. injection Hts' as <-.
  rewrite Hev in Hev'. injection Hev' as <-.
  rewrite Hmat in Hall. inversion Hall; subst fulls.
  assert (Hundef : proposalEvent st = PEUndefined) by exact Hpe.
  split; [|split].
  - rewrite Hact. apply Z.ltb_lt, Hpos.
  - exact Hundef.
  - apply questionState_undefined; assumption.
Qed.

Lemma C2_witness :
  exists st tr,
    Async.run (UmaModule.getModuleDetailsUma Sample.lib Sample.laggingChain
                 Sample.account Sample.network Sample.moduleAddress
                 Sample.explanation (Some [Sample.tx1])) = (inr st, tr)
    /\ activeProposal st = true
    /\ proposalEvent st = PEUndefined
    /\ HandleOutcome.questionState Sample.account false (Some st)
       = HandleOutcome.waitingForProposal.
Proof.
  apply (C2_unmatched_submission_reads_waiting Sample.lib Sample.laggingChain
           Sample.account Sample.network Sample.moduleAddress
           Sample.explanation [Sample.tx1]
           {| mc_avatar := Sample.daoAddress;
              mc_optimisticOracle := Sample.oracleAddress;
              mc_rules := "ipfs rules";
              mc_bondAmount := 2 * 10 ^ 18;
              mc_liveness := 7200 |}
           Sample.hash1 1700000000 [Sample.staleEvent]).
  - apply Sample_answers.
  - apply Sample_decodable.
  - reflexivity.
  - reflexivity.
  - reflexivity.
  - reflexivity.
  - reflexivity.
  - reflexivity.
  - reflexivity.
Defined.

(* ================================================================= *)
(** ** The branch without transactions *)

(** C5, as stated, fails for the empty batch: [[]] is not [undefined], so the
    proposal hash and the ancillary data are computed, [proposalHashes] is
    read, the three event queries are issued, and the status has
    [noTransactions = false]. *)
Lemma C5_counterexample_empty_batch :
  exists st tr,
    Async.run (UmaModule.getModuleDetailsUma Sample.lib Sample.shortAllowanceChain
                 Sample.account Sample.network Sample.moduleAddress
                 Sample.explanation (Some [])) = (inr st, tr)
    /\ noTransactions st = false
    /\ In (Module_proposalHashes Sample.moduleAddress Sample.hash1) tr
    /\ In (Oracle_ProposePrice Sample.oracleAddress Sample.moduleAddress) tr
    /\ In (Module_TransactionsProposed Sample.moduleAddress) tr
    /\ In (Module_ProposalExecuted Sample.moduleAddress Sample.hash1) tr.
Proof.
  eexists; eexists. split; [vm_compute; reflexivity|].
  split; [reflexivity|]. simpl. unfold Sample.hash1. simpl. tauto.
Qed.

(** C5, amended to the undefined batch.  For [transactions === undefined]
    the trace holds no [proposalHashes] read, no event query and no
    [getRequest]; a returned status has [noTransactions = true],
    [activeProposal = false] and [proposalExecuted = false]; a status is
    returned exactly when the configuration and bond reads succeed, whatever
    the oracle and the event queries would answer; and outcome and trace are
    the same whatever the hashing and encoding functions are, so neither the
    proposal hash nor the ancillary data enters the result. *)
Theorem C5_undefined_batch_skips_correlation
    (lib lib' : Ethers) chain web3Account network moduleAddress explanation r tr :
  Async.run (UmaModule.getModuleDetailsUma lib chain web3Account network
               moduleAddress explanation None) = (r, tr) ->
  configOnly tr = true
  /\ (forall st, r = inr st ->
        noTransactions st = true /\ activeProposal st = false
        /\ proposalExecuted st = false)
  /\ ((exists st, r = inr st)
      <-> configAnswers chain web3Account network moduleAddress = true)
  /\ Async.run (UmaModule.getModuleDetailsUma lib' chain web3Account network
                  moduleAddress explanation None) = (r, tr).
Proof.
  intros H.
  pose proof (undefined_batch_returns_iff lib chain web3Account network
                moduleAddress explanation r tr H) as Hiff.
  destruct (undefined_batch_spec lib chain web3Account network moduleAddress
              explanation) as (r' & l & E & Hl & Hst & _).
  rewrite E in H. injection H as <- <-.
  split; [exact Hl|]. split; [|split].
  - intros st Hr. destruct (Hst st Hr) as (H1 & H2 & H3 & _). auto.
  - exact Hiff.
  - exact E.
Qed.

(** The oracle of the snapshot does not answer [getRequest], and the second
    library shares no function with the first. *)
Lemma C5_witness :
  exists r tr,
    Async.run (UmaModule.getModuleDetailsUma Sample.lib Scenario.silentOracleChain
                 Sample.account Sample.network Sample.moduleAddress
                 Sample.explanation None) = (r, tr)
    /\ configOnly tr = true
    /\ (forall st, r = inr st ->
          noTransactions st = true /\ activeProposal st = false
          /\ proposalExecuted st = false)
    /\ ((exists st, r = inr st)
        <-> configAnswers Scenario.silentOracleChain Sample.account
              Sample.network Sample.moduleAddress = true)
    /\ Async.run (UmaModule.getModuleDetailsUma Scenario.otherLib
                    Scenario.silentOracleChain
                    Sample.account Sample.network Sample.moduleAddress
                    Sample.explanation None) = (r, tr).
Proof.
  eexists; eexists. split; [vm_compute; reflexivity|].
  apply (C5_undefined_batch_skips_correlation Sample.lib Scenario.otherLib
           Scenario.silentOracleChain Sample.account Sample.network
           Sample.moduleAddress Sample.explanation).
  vm_compute. reflexivity.
Defined.

(* ================================================================= *)
(** ** The bond check *)

(** C6 (evaluation at the failing input).  The bond is 2 * 10^18 and the
    allowance is one unit less.  Both are converted with [Number] before they
    are compared; both become the double 2 * 10^18, and the returned status
    has [needsBondApproval = false] although the bond is positive and larger
    than the allowance. *)
Theorem C6_bond_check_rounds_to_double :
  exists st tr,
    Async.run (UmaModule.getModuleDetailsUma Sample.lib Sample.shortAllowanceChain
                 Sample.account Sample.network Sample.moduleAddress
                 Sample.explanation None) = (inr st, tr)
    /\ minimumBond st = 2000000000000000000
    /\ allowance st = 1999999999999999999
    /\ 0 < minimumBond st
    /\ allowance st < minimumBond st
    /\ Js.Number (allowance st) = Js.Number (minimumBond st)
    /\ needsBondApproval st = false.
Proof.
  eexists; eexists. split; [vm_compute; reflexivity|].
  repeat split; reflexivity.
Qed.

(* ================================================================= *)
(** ** A batch that cannot be encoded *)

(** C8, as stated, fails: for a batch with a malformed destination the
    multicall, [collateral], [symbol], [decimals], [allowance] and
    [balanceOf] are all read before the coder throws. *)
Lemma C8_counterexample_reads_before_failing :
  In Sample.badTx [Sample.tx1; Sample.badTx]
  /\ isAddress Sample.lib (to Sample.badTx) = false
  /\ Async.run (UmaModule.getModuleDetailsUma Sample.lib Sample.shortAllowanceChain
                  Sample.account Sample.network Sample.moduleAddress
                  Sample.explanation (Some [Sample.tx1; Sample.badTx]))
     = (inl InvalidArgument,
        [Multicall Sample.network Sample.moduleAddress;
         Module_collateral Sample.moduleAddress;
         Erc20_symbol Sample.tokenAddress;
         Erc20_decimals Sample.tokenAddress;
         Erc20_allowance Sample.tokenAddress Sample.account Sample.moduleAddress;
         Erc20_balanceOf Sample.tokenAddress Sample.account]).
Proof.
  split; [simpl; tauto|]. split; reflexivity.
Qed.

(** C8, amended.  For a batch that contains a malformed destination address
    no status is returned, and no [proposalHashes] read, event query or
    [getRequest] is issued.  When the configuration and bond reads succeed,
    the call fails with the coder's invalid-argument error, and the reads
    issued are exactly the [multicall] followed by the bond reads:
    [collateral], [symbol], [decimals] and, for a connected account,
    [allowance] and [balanceOf]. *)
Theorem C8_malformed_batch_fails_after_config_reads
    lib chain web3Account network moduleAddress explanation txs tx :
  In tx txs ->
  isAddress lib (to tx) = false ->
  (exists e tr,
     Async.run (UmaModule.getModuleDetailsUma lib chain web3Account network
                  moduleAddress explanation (Some txs)) = (inl e, tr)
     /\ configOnly tr = true)
  /\ (configAnswers chain web3Account network moduleAddress = true ->
      exists token,
        rpc_collateral chain moduleAddress = Some token
        /\ Async.run (UmaModule.getModuleDetailsUma lib chain web3Account network
                        moduleAddress explanation (Some txs))
           = (inl InvalidArgument,
              Multicall network moduleAddress
                :: bondReads web3Account token moduleAddress)).
Proof.
  intros Hin Hbad.
  pose proof (computeProposalHash_malformed lib txs tx Hin Hbad) as Hh.
  split.
  - destruct (rejected_batch_spec lib chain web3Account network moduleAddress
                explanation txs Hh) as (e & l & E & Hl & _).
    exists e, (Multicall network moduleAddress :: l).
    split; [exact E|exact Hl].
  - apply rejected_batch_exact. exact Hh.
Qed.

(** The sample batch on a snapshot whose oracle does not answer: the six
    configuration and bond reads, then the coder's error. *)
Lemma C8_witness :
  (exists e tr,
     Async.run (UmaModule.getModuleDetailsUma Sample.lib Scenario.silentOracleChain
                  Sample.account Sample.network Sample.moduleAddress
                  Sample.explanation (Some [Sample.tx1; Sample.badTx])) = (inl e, tr)
     /\ configOnly tr = true)
  /\ exists token,
       rpc_collateral Scenario.silentOracleChain Sample.moduleAddress = Some token
       /\ Async.run (UmaModule.getModuleDetailsUma Sample.lib
                       Scenario.silentOracleChain
                       Sample.account Sample.network Sample.moduleAddress
                       Sample.explanation (Some [Sample.tx1; Sample.badTx]))
          = (inl InvalidArgument,
             Multicall Sample.network Sample.moduleAddress
               :: bondReads Sample.account token Sample.moduleAddress).
Proof.
  destruct (C8_malformed_batch_fails_after_config_reads Sample.lib
              Scenario.silentOracleChain Sample.account Sample.network
              Sample.moduleAddress Sample.explanation
              [Sample.tx1; Sample.badTx] Sample.badTx) as [H1 H2].
  - simpl. right. left. reflexivity.
  - reflexivity.
  - split; [exact H1|]. apply H2. vm_compute. reflexivity.
Defined.

(* ================================================================= *)
(** ** Rounding to a double is monotone *)

Section NumberFacts.

(** Above 2^53 the value is a 53-bit mantissa, rounded, times a power of
    two. *)
Lemma Number_big z :
  2 ^ 53 <= z ->
  exists e q r,
    1 <= e /\ e = Z.log2 z - 52
    /\ z = q * 2 ^ e + r /\ 0 <= r < 2 ^ e
    /\ 2 ^ 52 <= q < 2 ^ 53
    /\ Js.Number z
       = (if (2 ^ (e - 1) <? r) || ((r =? 2 ^ (e - 1)) && Z.odd q)
          then q + 1 else q) * 2 ^ e.
Proof.
  intros Hz.
  assert (Hpos : 0 < z) by (pose proof (Z.pow_pos_nonneg 2 53); lia).
  pose proof (Z.log2_spec z Hpos) as [Hlo Hhi].
  assert (Hl : 53 <= Z.log2 z).
  { apply Z.log2_le_pow2; lia. }
  set (e := Z.log2 z - 52).
  assert (He : 1 <= e) by (unfold e; lia).
  assert (Hp : 0 < 2 ^ e) by (apply Z.pow_pos_nonneg; lia).
  exists e, (z / 2 ^ e), (z mod 2 ^ e).
  split; [exact He|]. split; [reflexivity|].
  split; [rewrite Z.mul_comm; apply Z.div_mod; lia|].
  split; [apply Z.mod_pos_bound; exact Hp|].
  split.
  - replace (Z.log2 z) with (52 + e) in Hlo by (unfold e; lia).
    replace (Z.succ (Z.log2 z)) with (53 + e) in Hhi by (unfold e; lia).
    rewrite Z.pow_add_r in Hlo, Hhi by lia.
    split.
    + apply Z.div_le_lower_bound; [exact Hp|]. lia.
    + apply Z.div_lt_upper_bound; [exact Hp|]. lia.
  - unfold Js.Number. rewrite (Z.abs_eq z) by lia.
    destruct (Z.ltb_spec z (2 ^ 53)); [lia|].
    fold e. rewrite Z.sgn_pos by exact Hpos.
    rewrite Z.shiftr_div_pow2 by lia.
    rewrite !Z.shiftl_mul_pow2 by lia.
    replace (z - z / 2 ^ e * 2 ^ e) with (z mod 2 ^ e).
    2:{ rewrite Z.mod_eq by lia. ring. }
    rewrite Z.mul_1_l. reflexivity.
Qed.

Lemma Number_big_bounds z :
  2 ^ 53 <= z ->
  2 ^ (Z.log2 z) <= Js.Number z <= 2 ^ (Z.log2 z + 1).
Proof.
  intros Hz.
  destruct (Number_big z Hz) as (e & q & r & He & Ee & Ez & Hr & Hq & ->).
  replace (Z.log2 z) with (52 + e) by lia.
  replace (52 + e + 1) with (53 + e) by lia.
  rewrite !Z.pow_add_r by lia.
  assert (Hp : 0 < 2 ^ e) by (apply Z.pow_pos_nonneg; lia).
  destruct ((2 ^ (e - 1) <? r) || ((r =? 2 ^ (e - 1)) && Z.odd q)); nia.
Qed.

Lemma Number_mono_nonneg a b :
  0 <= a -> a <= b -> Js.Number a <= Js.Number b.
Proof.
  intros Ha Hab.
  destruct (Z.lt_ge_cases b (2 ^ 53)) as [Hb|Hb].
  - unfold Js.Number. rewrite !Z.abs_eq by lia.
    destruct (Z.ltb_spec a (2 ^ 53)); [|lia].
    destruct (Z.ltb_spec b (2 ^ 53)); [|lia]. exact Hab.
  - destruct (Z.lt_ge_cases a (2 ^ 53)) as [Ha'|Ha'].
    + pose proof (Number_big_bounds b Hb) as [Hlo _].
      assert (2 ^ 53 <= 2 ^ Z.log2 b).
      { apply Z.pow_le_mono_r; [lia|]. apply Z.log2_le_pow2; lia. }
      unfold Js.Number at 1. rewrite Z.abs_eq by lia.
      destruct (Z.ltb_spec a (2 ^ 53)); lia.
    + pose proof (Z.log2_le_mono a b Hab) as Hlog.
      destruct (Z.eq_dec (Z.log2 a) (Z.log2 b)) as [El|Nl].
      * destruct (Number_big a Ha') as (e & q & r & He & Ee & Ez & Hr & Hq & ->).
        destruct (Number_big b Hb) as (e' & q' & r' & He' & Ee' & Ez' & Hr' & Hq' & ->).
        assert (Eq : e' = e) by lia. clear Ee'. subst e'.
        assert (Hp : 0 < 2 ^ e) by (apply Z.pow_pos_nonneg; lia).
        assert (Hqq : q <= q').
        { destruct (Z.le_gt_cases q q') as [|Hgt]; [assumption|].
          assert ((q' + 1) * 2 ^ e <= q * 2 ^ e)
            by (apply Z.mul_le_mono_nonneg_r; lia).
          lia. }
        destruct (Z.eq_dec q q') as [<-|Hne].
        -- assert (Hrr : r <= r') by lia.
           apply Z.mul_le_mono_nonneg_r; [lia|].
           destruct (Z.ltb_spec (2 ^ (e - 1)) r);
             destruct (Z.ltb_spec (2 ^ (e - 1)) r');
             destruct (Z.eqb_spec r (2 ^ (e - 1)));
             destruct (Z.eqb_spec r' (2 ^ (e - 1)));
             destruct (Z.odd q); cbn [orb andb]; lia.
        -- apply Z.mul_le_mono_nonneg_r; [lia|].
           destruct ((2 ^ (e - 1) <? r) || ((r =? 2 ^ (e - 1)) && Z.odd q));
             destruct ((2 ^ (e - 1) <? r') || ((r' =? 2 ^ (e - 1)) && Z.odd q'));
             lia.
      * pose proof (Number_big_bounds a Ha') as [_ Hhi].
        pose proof (Number_big_bounds b Hb) as [Hlo _].
        assert (2 ^ (Z.log2 a + 1) <= 2 ^ Z.log2 b).
        { apply Z.pow_le_mono_r; lia. }
        lia.
Qed.

Lemma Number_pos z : 0 < z -> 0 < Js.Number z.
Proof.
  intros Hz. destruct (Z.lt_ge_cases z (2 ^ 53)) as [H|H].
  - unfold Js.Number. rewrite Z.abs_eq by lia.
    destruct (Z.ltb_spec z (2 ^ 53)); lia.
  - pose proof (Number_big_bounds z H) as [Hlo _].
    pose proof (Z.pow_pos_nonneg 2 (Z.log2 z)).
    pose proof (Z.log2_nonneg z). lia.
Qed.

Lemma Number_opp z : Js.Number (- z) = - Js.Number z.
Proof.
  unfold Js.Number. rewrite Z.abs_opp, Z.sgn_opp.
  destruct (Z.abs z <? 2 ^ 53); [reflexivity|]. ring.
Qed.

Lemma Number_pos_iff z : 0 < Js.Number z <-> 0 < z.
Proof.
  split; [|apply Number_pos].
  intros H. destruct (Z.lt_trichotomy z 0) as [Hn|[->|Hp]]; [| |exact Hp].
  - assert (0 < Js.Number (- z)) by (apply Number_pos; lia).
    rewrite Number_opp in *. lia.
  - discriminate H.
Qed.

Lemma Number_zero_iff z : Js.Number z = 0 <-> z = 0.
Proof.
  split; [|intros ->; reflexivity].
  intros H. destruct (Z.lt_trichotomy z 0) as [Hn|[E|Hp]]; [|exact E|].
  - assert (0 < Js.Number (- z)) by (apply Number_pos; lia).
    rewrite Number_opp in *. lia.
  - pose proof (Number_pos z Hp). lia.
Qed.

(** A strict comparison of the doubles implies the strict comparison of
    the integers. *)
Lemma Number_lt_nonneg a b :
  0 <= a -> 0 <= b -> Js.Number a < Js.Number b -> a < b.
Proof.
  intros Ha Hb H. destruct (Z.lt_ge_cases a b) as [|Hge]; [assumption|].
  pose proof (Number_mono_nonneg b a Hb Hge). lia.
Qed.

End NumberFacts.

(* ================================================================= *)
(** ** More on the bond check *)

(** X1.  When a returned status asks for a bond approval, the bond is
    positive and larger than the allowance: rounding to doubles can hide a
    shortfall, it never invents one.  (Bond and allowance are unsigned on
    the chain.) *)
Theorem X1_bond_approval_never_spurious
    lib chain web3Account network moduleAddress explanation transactions st tr :
  Async.run (UmaModule.getModuleDetailsUma lib chain web3Account network
               moduleAddress explanation transactions) = (inr st, tr) ->
  0 <= minimumBond st -> 0 <= allowance st ->
  needsBondApproval st = true ->
  0 < minimumBond st /\ allowance st < minimumBond st.
Proof.
  intros H Hb Ha Hn.
  apply getModuleDetailsUma_bond in H as (md & _ & _ & _ & E).
  rewrite E in Hn. unfold UmaModule.computeNeedsApproval in Hn.
  apply andb_true_iff in Hn as [H1 H2].
  apply Z.ltb_lt in H1, H2. split.
  - apply Number_pos_iff, H1.
  - apply Number_lt_nonneg; assumption.
Qed.

Lemma X1_witness :
  exists st tr,
    Async.run (UmaModule.getModuleDetailsUma Sample.lib Scenario.unapprovedChain
                 Sample.account Sample.network Sample.moduleAddress
                 Sample.explanation None) = (inr st, tr)
    /\ 0 < minimumBond st /\ allowance st < minimumBond st.
Proof.
  eexists; eexists. split; [vm_compute; reflexivity|].
  eapply (X1_bond_approval_never_spurious Sample.lib Scenario.unapprovedChain
            Sample.account Sample.network Sample.moduleAddress
            Sample.explanation None).
  - vm_compute. reflexivity.
  - vm_compute. discriminate.
  - vm_compute. discriminate.
  - reflexivity.
Defined.

(** X2.  When bond and allowance are both below 2^53, the returned
    [needsBondApproval] is exactly "the bond is positive and larger than the
    allowance". *)
Theorem X2_bond_check_exact_below_2_53
    lib chain web3Account network moduleAddress explanation transactions st tr :
  Async.run (UmaModule.getModuleDetailsUma lib chain web3Account network
               moduleAddress explanation transactions) = (inr st, tr) ->
  0 <= minimumBond st < 2 ^ 53 -> 0 <= allowance st < 2 ^ 53 ->
  (needsBondApproval st = true <->
   0 < minimumBond st /\ allowance st < minimumBond st).
Proof.
  intros H Hb Ha.
  apply getModuleDetailsUma_bond in H as (md & _ & _ & _ & ->).
  apply computeNeedsApproval_exact; assumption.
Qed.

Lemma X2_witness :
  exists st tr,
    Async.run (UmaModule.getModuleDetailsUma Sample.lib Scenario.smallBondChain
                 Sample.account Sample.network Sample.moduleAddress
                 Sample.explanation None) = (inr st, tr)
    /\ (needsBondApproval st = true <->
        0 < minimumBond st /\ allowance st < minimumBond st).
Proof.
  eexists; eexists. split; [vm_compute; reflexivity|].
  eapply (X2_bond_check_exact_below_2_53 Sample.lib Scenario.smallBondChain
            Sample.account Sample.network Sample.moduleAddress
            Sample.explanation None).
  - vm_compute. reflexivity.
  - vm_compute. split; [discriminate|reflexivity].
  - vm_compute. split; [discriminate|reflexivity].
Defined.

(* ================================================================= *)
(** ** The reads of a successful call, in order *)

Section ReadOrder.

Import UmaModule.

Context (lib : Ethers) (chain : Chain) (web3Account : string).

Ltac step H :=
  let a := fresh "a" in
  let t := fresh "t" in
  let H1 := fresh "Step" in
  apply bind_inr in H; destruct H as (a & t & H1 & H).

Lemma getBondDetails_reads moduleAddress tr bd tr' :
  getBondDetails chain web3Account moduleAddress tr = (inr bd, tr') ->
  tr' = tr ++ bondReads web3Account (bi_collateral bd) moduleAddress
  /\ (Js.truthy_string web3Account = false ->
      currentUserBondAllowance bd = 0 /\ currentUserBalance bd = 0).
Proof.
  unfold getBondDetails, bondReads. intros H.
  step H. apply call_inr in Step as [_ ->].
  step H. apply call_inr in Step as [_ ->].
  step H. apply call_inr in Step as [_ ->].
  step H. step H. apply ret_inr in H as [<- <-]. simpl.
  destruct (Js.truthy_string web3Account).
  - apply call_inr in Step as [_ ->]. apply call_inr in Step0 as [_ ->].
    split; [|discriminate]. now rewrite <- !app_assoc.
  - apply ret_inr in Step as [<- ->]. apply ret_inr in Step0 as [<- ->].
    split; [|auto]. now rewrite <- !app_assoc.
Qed.

(** Every [getRequest] of a [Promise.all] is issued, whatever the
    answers. *)
Lemma Promise_all_map_reads optimisticOracle hash events :
  forall tr r tr',
    Async.Promise_all_map (requestOf chain optimisticOracle hash) events tr
    = (r, tr') ->
    tr' = tr ++ map (getRequestRead optimisticOracle) events.
Proof.
  induction events as [|event rest IH]; intros tr r tr'; simpl.
  - unfold Async.ret. intros [= _ <-]. now rewrite app_nil_r.
  - destruct (requestOf chain optimisticOracle hash event tr) as [r1 tr1] eqn:E1.
    destruct (Async.Promise_all_map (requestOf chain optimisticOracle hash) rest tr1)
      as [rs tr2] eqn:E2.
    intros [= _ <-]. apply IH in E2. subst tr2.
    unfold requestOf, Async.bind, Async.call in E1.
    destruct (rpc_getRequest chain optimisticOracle (pp_requester event)
                (pp_identifier event) (pp_timestamp event)
                (pp_ancillaryData event));
      injection E1 as _ <-; now rewrite <- app_assoc.
Qed.

(** One unanswered [getRequest] rejects the whole [Promise.all]. *)
Lemma Promise_all_map_rejects optimisticOracle hash events event :
  In event events ->
  rpc_getRequest chain optimisticOracle (pp_requester event)
    (pp_identifier event) (pp_timestamp event) (pp_ancillaryData event) = None ->
  forall tr,
    fst (Async.Promise_all_map (requestOf chain optimisticOracle hash) events tr)
    = inl RpcFailure.
Proof.
  intros Hin Hnone. induction events as [|x rest IH]; [destruct Hin|].
  intros tr. simpl.
  destruct (requestOf chain optimisticOracle hash x tr) as [r1 tr1] eqn:E1.
  destruct (Async.Promise_all_map (requestOf chain optimisticOracle hash) rest tr1)
    as [rs tr2] eqn:E2.
  simpl. destruct Hin as [->|Hin].
  - unfold requestOf, Async.bind, Async.call in E1. rewrite Hnone in E1.
    injection E1 as <- _. reflexivity.
  - specialize (IH Hin tr1). rewrite E2 in IH. simpl in IH. subst rs.
    destruct r1 as [e|b]; [|reflexivity].
    unfold requestOf, Async.bind, Async.call, Async.ret in E1.
    destruct (rpc_getRequest chain optimisticOracle (pp_requester x)
                (pp_identifier x) (pp_timestamp x) (pp_ancillaryData x));
      [discriminate E1 | injection E1 as <- _; reflexivity].
Qed.

Lemma undefined_batch_reads network moduleAddress explanation st tr :
  Async.run (getModuleDetailsUma lib chain web3Account network moduleAddress
               explanation None) = (inr st, tr) ->
  tr = Multicall network moduleAddress
       :: bondReads web3Account (collateral st) moduleAddress
  /\ proposalEvent st = PEEmptyObject
  /\ (Js.truthy_string web3Account = false ->
      allowance st = 0 /\ userBalance st = 0).
Proof.
  unfold Async.run, getModuleDetailsUma. intros H.
  step H. apply call_inr in Step as [_ ->].
  step H. apply getBondDetails_reads in Step as [-> Hz].
  apply ret_inr in H as [<- ->]. simpl. auto.
Qed.

Lemma batch_reads network moduleAddress explanation txs st tr :
  Async.run (getModuleDetailsUma lib chain web3Account network moduleAddress
               explanation (Some txs)) = (inr st, tr) ->
  exists hash ts events,
    computeProposalHash lib txs = inr hash
    /\ rpc_proposalHashes chain moduleAddress hash = Some ts
    /\ rpc_ProposePrice chain (oracle st) moduleAddress = Some events
    /\ tr = Multicall network moduleAddress
            :: bondReads web3Account (collateral st) moduleAddress
            ++ [Module_proposalHashes moduleAddress hash;
                Module_proposalHashes moduleAddress hash;
                Oracle_ProposePrice (oracle st) moduleAddress]
            ++ map (getRequestRead (oracle st))
                 (thisModuleProposalEvent (computeAncillaryData hash) ts events)
            ++ [Module_TransactionsProposed moduleAddress;
                Module_ProposalExecuted moduleAddress hash]
    /\ (Js.truthy_string web3Account = false ->
        allowance st = 0 /\ userBalance st = 0).
Proof.
  unfold Async.run, getModuleDetailsUma. intros H.
  step H. apply call_inr in Step as [_ ->].
  step H. apply getBondDetails_reads in Step as [-> Hz].
  step H. apply lift_inr in Step as [Hh ->].
  step H. apply call_inr in Step as [_ ->].
  step H. apply call_inr in Step as [Hts ->].
  step H. apply call_inr in Step as [Hev ->].
  step H. apply Promise_all_map_reads in Step. subst t.
  step H. apply call_inr in Step as [_ ->].
  step H. apply lift_inr in Step as [_ ->].
  step H. apply call_inr in Step as [_ ->].
  apply ret_inr in H as [<- ->]. simpl.
  exists a1, a3, a4. repeat (split; [assumption|]). split; [|exact Hz].
  rewrite <- !app_assoc. reflexivity.
Qed.

End ReadOrder.

(** X3.  A status returned for a batch was obtained with exactly these
    reads, in this order: the multicall, the bond reads, [proposalHashes]
    twice, the oracle's [ProposePrice] query, one [getRequest] per matching
    oracle event, the module's [TransactionsProposed] query and its
    [ProposalExecuted] query. *)
Theorem X3_reads_of_a_returned_status
    lib chain web3Account network moduleAddress explanation txs st tr :
  Async.run (UmaModule.getModuleDetailsUma lib chain web3Account network
               moduleAddress explanation (Some txs)) = (inr st, tr) ->
  exists hash ts events,
    UmaModule.computeProposalHash lib txs = inr hash
    /\ rpc_proposalHashes chain moduleAddress hash = Some ts
    /\ rpc_ProposePrice chain (oracle st) moduleAddress = Some events
    /\ tr = Multicall network moduleAddress
            :: bondReads web3Account (collateral st) moduleAddress
            ++ [Module_proposalHashes moduleAddress hash;
                Module_proposalHashes moduleAddress hash;
                Oracle_ProposePrice (oracle st) moduleAddress]
            ++ map (getRequestRead (oracle st))
                 (UmaModule.thisModuleProposalEvent
                    (UmaModule.computeAncillaryData hash) ts events)
            ++ [Module_TransactionsProposed moduleAddress;
                Module_ProposalExecuted moduleAddress hash].
Proof.
  intros H.
  apply batch_reads in H as (hash & ts & events & Hh & Hts & Hev & Htr & _).
  exists hash, ts, events. auto.
Qed.

Lemma X3_witness :
  exists st tr,
    Async.run (UmaModule.getModuleDetailsUma Sample.lib Sample.duplicateChain
                 Sample.account Sample.network Sample.moduleAddress
                 Sample.explanation (Some [Sample.tx1])) = (inr st, tr)
    /\ exists hash ts events,
      UmaModule.computeProposalHash Sample.lib [Sample.tx1] = inr hash
      /\ rpc_proposalHashes Sample.duplicateChain Sample.moduleAddress hash = Some ts
      /\ rpc_ProposePrice Sample.duplicateChain (oracle st) Sample.moduleAddress
         = Some events
      /\ tr = Multicall Sample.network Sample.moduleAddress
              :: bondReads Sample.account (collateral st) Sample.moduleAddress
              ++ [Module_proposalHashes Sample.moduleAddress hash;
                  Module_proposalHashes Sample.moduleAddress hash;
                  Oracle_ProposePrice (oracle st) Sample.moduleAddress]
              ++ map (getRequestRead (oracle st))
                   (UmaModule.thisModuleProposalEvent
                      (UmaModule.computeAncillaryData hash) ts events)
              ++ [Module_TransactionsProposed Sample.moduleAddress;
                  Module_ProposalExecuted Sample.moduleAddress hash].
Proof.
  eexists; eexists. split; [vm_compute; reflexivity|].
  eapply (X3_reads_of_a_returned_status Sample.lib Sample.duplicateChain
            Sample.account Sample.network Sample.moduleAddress
            Sample.explanation [Sample.tx1]).
  vm_compute. reflexivity.
Defined.

(** X4.  Without a connected account ([web3Account] empty) a returned
    status has allowance and balance zero, asks for an approval exactly when
    the bond is positive, and neither [allowance] nor [balanceOf] was
    read. *)
Theorem X4_disconnected_account_reads_no_allowance
    lib chain network moduleAddress explanation transactions st tr :
  Async.run (UmaModule.getModuleDetailsUma lib chain "" network
               moduleAddress explanation transactions) = (inr st, tr) ->
  allowance st = 0 /\ userBalance st = 0
  /\ needsBondApproval st = (0 <? minimumBond st)
  /\ existsb isAllowanceOrBalanceRead tr = false.
Proof.
  intros H.
  pose proof (getModuleDetailsUma_bond _ _ _ _ _ _ _ _ _ H)
    as (md & _ & _ & _ & Hn).
  assert (Hz : allowance st = 0 /\ userBalance st = 0
               /\ existsb isAllowanceOrBalanceRead tr = false).
  { destruct transactions as [txs|].
    - apply batch_reads in H
        as (hash & ts & events & _ & _ & _ & -> & Hz).
      destruct (Hz eq_refl) as [Ha Hb]. repeat split; auto.
      simpl. rewrite existsb_app. simpl.
      apply orb_false_iff. split; [|reflexivity].
      induction (UmaModule.thisModuleProposalEvent
                   (UmaModule.computeAncillaryData hash) ts events);
        simpl; auto.
    - apply undefined_batch_reads in H as (-> & _ & Hz).
      destruct (Hz eq_refl) as [Ha Hb]. repeat split; auto. }
  destruct Hz as (Ha & Hb & Ht). repeat split; auto.
  rewrite Hn, Ha. unfold UmaModule.computeNeedsApproval.
  change (Js.Number 0) with 0.
  destruct (Z.ltb_spec 0 (Js.Number (minimumBond st))) as [Hp|Hp];
    destruct (Z.ltb_spec 0 (minimumBond st)) as [Hq|Hq]; try reflexivity.
  - apply (proj1 (Number_pos_iff _)) in Hp. lia.
  - apply (proj2 (Number_pos_iff _)) in Hq. lia.
Qed.

Lemma X4_witness :
  exists st tr,
    Async.run (UmaModule.getModuleDetailsUma Sample.lib Sample.duplicateChain
                 "" Sample.network Sample.moduleAddress
                 Sample.explanation (Some [Sample.tx1])) = (inr st, tr)
    /\ allowance st = 0 /\ userBalance st = 0
    /\ needsBondApproval st = (0 <? minimumBond st)
    /\ existsb isAllowanceOrBalanceRead tr = false.
Proof.
  eexists; eexists. split; [vm_compute; reflexivity|].
  eapply (X4_disconnected_account_reads_no_allowance Sample.lib
            Sample.duplicateChain Sample.network Sample.moduleAddress
            Sample.explanation (Some [Sample.tx1])).
  vm_compute. reflexivity.
Defined.

(* ================================================================= *)
(** ** Failures inside the correlation part *)

Section CorrelationFailures.

Import UmaModule.

Lemma configOnly_In l c :
  configOnly l = true -> In c l -> isCorrelationRead c = false.
Proof.
  unfold configOnly. rewrite forallb_forall. intros H Hin.
  apply negb_true_iff. apply H, Hin.
Qed.

Lemma decodes_when_filtered lib explanation events kept :
  thisProposalTransactionsProposedEvents lib explanation events = inr kept ->
  forall event, In event events ->
                toUtf8String lib (tp_explanation event) <> None.
Proof.
  revert kept. induction events as [|e rest IH]; intros kept H event Hin.
  - destruct Hin.
  - simpl in H.
    destruct (toUtf8String lib (tp_explanation e)) as [s|] eqn:Es;
      [|discriminate].
    destruct (thisProposalTransactionsProposedEvents lib explanation rest)
      as [x|kept'] eqn:Er; [discriminate|].
    destruct Hin as [<-|Hin].
    + rewrite Es. discriminate.
    + eapply IH; eauto.
Qed.

End CorrelationFailures.

(** X5.  When the oracle leaves the [getRequest] of one matching event
    unanswered, no status is returned and the module's
    [TransactionsProposed] events are never queried; once the [ProposePrice]
    query has been issued, the failure is the read failure and a
    [getRequest] has been issued for every matching event, the ones after
    the unanswered one included. *)
Theorem X5_unanswered_getRequest_rejects_the_call
    lib chain web3Account network moduleAddress explanation txs
    md hash ts events event :
  rpc_multicall chain network moduleAddress = Some md ->
  UmaModule.computeProposalHash lib txs = inr hash ->
  rpc_proposalHashes chain moduleAddress hash = Some ts ->
  rpc_ProposePrice chain (mc_optimisticOracle md) moduleAddress = Some events ->
  In event (UmaModule.thisModuleProposalEvent
              (UmaModule.computeAncillaryData hash) ts events) ->
  rpc_getRequest chain (mc_optimisticOracle md) (pp_requester event)
    (pp_identifier event) (pp_timestamp event) (pp_ancillaryData event) = None ->
  exists e tr,
    Async.run (UmaModule.getModuleDetailsUma lib chain web3Account network
                 moduleAddress explanation (Some txs)) = (inl e, tr)
    /\ ~ In (Module_TransactionsProposed moduleAddress) tr
    /\ (In (Oracle_ProposePrice (mc_optimisticOracle md) moduleAddress) tr ->
        e = RpcFailure
        /\ forall other,
            In other (UmaModule.thisModuleProposalEvent
                        (UmaModule.computeAncillaryData hash) ts events) ->
            In (getRequestRead (mc_optimisticOracle md) other) tr).
Proof.
  intros Hm Hh Hts Hev Hin Hnone.
  unfold Async.run, UmaModule.getModuleDetailsUma.
  unfold Async.bind at 1. unfold Async.call at 1. simpl app. rewrite Hm.
  unfold Async.bind at 1.
  destruct (getBondDetails_spec chain web3Account moduleAddress
              [Multicall network moduleAddress]) as (r & l & -> & Hl & _).
  destruct r as [e|bd].
  - exists e, (Multicall network moduleAddress :: l).
    split; [reflexivity|]. split.
    + intros [H|H]; [discriminate|].
      apply (configOnly_In _ _ Hl) in H. discriminate.
    + intros [H|H]; [discriminate|].
      apply (configOnly_In _ _ Hl) in H. discriminate.
  - unfold Async.bind at 1. unfold Async.lift at 1. rewrite Hh.
    unfold Async.bind at 1. unfold Async.call at 1. rewrite Hts.
    unfold Async.bind at 1. unfold Async.call at 1.
    unfold Async.bind at 1. unfold Async.call at 1. rewrite Hev.
    unfold Async.bind at 1.
    match goal with
    | |- context [Async.Promise_all_map ?f ?arr ?t] =>
        pose proof (Promise_all_map_rejects chain (mc_optimisticOracle md) hash
                      arr event Hin Hnone t) as Hrej;
        destruct (Async.Promise_all_map f arr t) as [rs tr'] eqn:Ep
    end.
    simpl in Hrej. subst rs.
    apply Promise_all_map_reads in Ep. subst tr'.
    eexists; eexists. split; [reflexivity|]. split.
    + rewrite !in_app_iff. simpl.
      intros [[[[[[H|[]]|H]|[H|[]]]|[H|[]]]|[H|[]]]|H]; try discriminate.
      * apply (configOnly_In _ _ Hl) in H. discriminate.
      * apply in_map_iff in H as (x & Hx & _). discriminate.
    + intros _. split; [reflexivity|].
      intros other Ho. apply in_or_app. right.
      apply in_map. exact Ho.
Qed.

Lemma X5_witness :
  exists e tr,
    Async.run (UmaModule.getModuleDetailsUma Sample.lib Scenario.silentOracleChain
                 Sample.account Sample.network Sample.moduleAddress
                 Sample.explanation (Some [Sample.tx1])) = (inl e, tr)
    /\ ~ In (Module_TransactionsProposed Sample.moduleAddress) tr
    /\ (In (Oracle_ProposePrice Sample.oracleAddress Sample.moduleAddress) tr ->
        e = RpcFailure
        /\ forall other,
            In other (UmaModule.thisModuleProposalEvent
                        (UmaModule.computeAncillaryData Sample.hash1) 1700000000
                        [Sample.staleEvent; Sample.event1; Sample.event2]) ->
            In (getRequestRead Sample.oracleAddress other) tr).
Proof.
  apply (X5_unanswered_getRequest_rejects_the_call Sample.lib
           Scenario.silentOracleChain Sample.account Sample.network
           Sample.moduleAddress Sample.explanation [Sample.tx1]
           {| mc_avatar := Sample.daoAddress;
              mc_optimisticOracle := Sample.oracleAddress;
              mc_rules := "ipfs rules";
              mc_bondAmount := 2 * 10 ^ 18;
              mc_liveness := 7200 |}
           Sample.hash1 1700000000
           [Sample.staleEvent; Sample.event1; Sample.event2] Sample.event1).
  - reflexivity.
  - reflexivity.
  - reflexivity.
  - reflexivity.
  - vm_compute. left. reflexivity.
  - reflexivity.
Defined.

(** X6.  One [TransactionsProposed] event of the module whose explanation
    is not valid UTF-8 is enough for no status to be returned for any batch
    and any explanation: the decoder throws while the events are
    filtered. *)
Theorem X6_undecodable_explanation_blocks_every_status
    lib chain web3Account network moduleAddress explanation txs tps event :
  rpc_TransactionsProposed chain moduleAddress = Some tps ->
  In event tps ->
  toUtf8String lib (tp_explanation event) = None ->
  exists e tr,
    Async.run (UmaModule.getModuleDetailsUma lib chain web3Account network
                 moduleAddress explanation (Some txs)) = (inl e, tr).
Proof.
  intros Htp Hin Hbad.
  destruct (Async.run (UmaModule.getModuleDetailsUma lib chain web3Account
                         network moduleAddress explanation (Some txs)))
    as [[e|st] tr] eqn:R.
  - now exists e, tr.
  - exfalso.
    apply getModuleDetailsUma_inr in R
      as (md & hash & ts & events & fulls & tps' & proposed & execs
          & _ & _ & _ & _ & _ & Htp' & Hpr & _).
    rewrite Htp in Htp'. injection Htp' as <-.
    exact (decodes_when_filtered _ _ _ _ Hpr event Hin Hbad).
Qed.

Lemma X6_witness :
  exists e tr,
    Async.run (UmaModule.getModuleDetailsUma Scenario.strictLib
                 Scenario.poisonedChain Sample.account Sample.network
                 Sample.moduleAddress Sample.explanation (Some [Sample.tx1]))
    = (inl e, tr).
Proof.
  apply (X6_undecodable_explanation_blocks_every_status Scenario.strictLib
           Scenario.poisonedChain Sample.account Sample.network
           Sample.moduleAddress Sample.explanation [Sample.tx1]
           [{| tp_explanation := Scenario.brokenExplanation;
               tp_proposalTime := 1600000000 |};
            Sample.proposed1]
           {| tp_explanation := Scenario.brokenExplanation;
              tp_proposalTime := 1600000000 |}).
  - reflexivity.
  - left. reflexivity.
  - reflexivity.
Defined.

(* ================================================================= *)
(** ** The oracle's correlation key *)

Lemma append_empty_r (s : string) : (s ++ "")%string = s.
Proof. induction s as [|c s IH]; simpl; [reflexivity|now rewrite IH]. Qed.

(** X7.  For a proposal hash written with the prefix [0x], the ancillary
    data is ["proposalHash:"] followed by the hexadecimal digits, so two such
    hashes with different digits give different ancillary data. *)
Theorem X7_ancillary_data_of_prefixed_hash :
  (forall digits,
      UmaModule.computeAncillaryData ("0x" ++ digits)
      = ("proposalHash:" ++ digits)%string)
  /\ (forall digits1 digits2,
        UmaModule.computeAncillaryData ("0x" ++ digits1)
        = UmaModule.computeAncillaryData ("0x" ++ digits2) ->
        digits1 = digits2).
Proof.
  assert (E : forall digits,
             UmaModule.computeAncillaryData ("0x" ++ digits)
             = ("proposalHash:" ++ digits)%string).
  { intros digits. unfold UmaModule.computeAncillaryData, UmaModule.pack.
    simpl. now rewrite append_empty_r. }
  split; [exact E|].
  intros d1 d2 H. rewrite !E in H. now injection H.
Qed.

(* ================================================================= *)
(** ** The status of the branch without transactions, as displayed *)

(** X8.  A status returned for [transactions === undefined] carries
    [proposalEvent = {}], an object without fields; with a connected wallet
    and loading over, [questionState] maps it to [error], and the template
    shows no button for it. *)
Theorem X8_status_without_transactions_displays_error
    lib chain web3Account network moduleAddress explanation st tr
    account chainIdInt w :
  Async.run (UmaModule.getModuleDetailsUma lib chain web3Account network
               moduleAddress explanation None) = (inr st, tr) ->
  Js.truthy_string account = true ->
  HandleOutcome.questionState account false (Some st) = HandleOutcome.error
  /\ existsb Template.isButton
       (Template.render account false (Some st) chainIdInt w) = false.
Proof.
  intros H Hacc.
  apply undefined_batch_reads in H as (_ & Hpe & _).
  assert (E : HandleOutcome.questionState account false (Some st)
              = HandleOutcome.error).
  { unfold HandleOutcome.questionState. rewrite Hacc, Hpe. reflexivity. }
  split; [exact E|].
  unfold Template.render. rewrite E. simpl.
  destruct (Network.connectedToRightChain chainIdInt w || Network.usingMetaMask w);
    reflexivity.
Qed.

Lemma X8_witness :
  exists st tr,
    Async.run (UmaModule.getModuleDetailsUma Sample.lib Sample.shortAllowanceChain
                 Sample.account Sample.network Sample.moduleAddress
                 Sample.explanation None) = (inr st, tr)
    /\ HandleOutcome.questionState Sample.account false (Some st)
       = HandleOutcome.error
    /\ existsb Template.isButton
         (Template.render Sample.account false (Some st) (Some 1)
            Stage.onMainnet) = false.
Proof.
  eexists; eexists. split; [vm_compute; reflexivity|].
  eapply (X8_status_without_transactions_displays_error Sample.lib
            Sample.shortAllowanceChain Sample.account Sample.network
            Sample.moduleAddress Sample.explanation).
  - vm_compute. reflexivity.
  - reflexivity.
Defined.

(* ================================================================= *)
(** ** When each state is shown *)

Section StateTable.

Import HandleOutcome.

Ltac unpack :=
  repeat match goal with
         | H : _ /\ _ |- _ => destruct H
         | H : exists _, _ |- _ => destruct H
         | H : _ \/ _ |- _ => destruct H
         | H : Some _ = Some _ |- _ => injection H as H; subst
         | H : PEObject _ = PEObject _ |- _ => injection H as H; subst
         end;
  try congruence.

(** Case analysis over everything [questionState] reads. *)
Ltac table account isLoading questionDetails :=
  unfold questionState;
  destruct (Js.truthy_string account) eqn:Hacc; cbn [negb];
  [destruct isLoading;
   [|destruct questionDetails as [details|];
     [destruct (proposalEvent details) as [| |e] eqn:Epe; cbv zeta;
      [| |unfold field, not_resolvedPrice, resolvedPrice_eq_0;
          destruct (isExpired e) eqn:Hexp, (isSettled e) eqn:Hset,
                   (isDisputed e) eqn:Hdis, (resolvedPrice e) as [z|] eqn:Hres;
          cbn [andb negb];
          try (destruct (Z.eqb_spec (Js.Number z) 0) as [Hz|Hz];
               [apply (proj1 (Number_zero_iff _)) in Hz; subst z
               |assert (z <> 0) by (intros ->; apply Hz; reflexivity)])]
     |]]
  |];
  (split; [try discriminate; intros _|intros; unpack]).

(** X9.  [proposalApproved] is shown exactly for an event that is expired
    and not settled, disputed or not, or settled and not disputed. *)
Theorem X9_proposalApproved_iff account isLoading questionDetails :
  questionState account isLoading questionDetails = proposalApproved <->
  Js.truthy_string account = true /\ isLoading = false
  /\ exists details e,
      questionDetails = Some details
      /\ proposalEvent details = PEObject e
      /\ ((isExpired e = true /\ isSettled e = false)
          \/ (isSettled e = true /\ isDisputed e = false)).
Proof.
  table account isLoading questionDetails.
  all: repeat split; auto; exists details, e; repeat split; auto.
Qed.

(** X10.  [completelyExecuted] is shown exactly for an event that is
    settled and disputed; whether the batch was executed plays no part. *)
Theorem X10_completelyExecuted_iff account isLoading questionDetails :
  questionState account isLoading questionDetails = completelyExecuted <->
  Js.truthy_string account = true /\ isLoading = false
  /\ exists details e,
      questionDetails = Some details
      /\ proposalEvent details = PEObject e
      /\ isSettled e = true /\ isDisputed e = true.
Proof.
  table account isLoading questionDetails.
  all: repeat split; auto; exists details, e; repeat split; auto.
Qed.

(** X11.  [proposalRejected] is shown exactly for an event that is
    disputed, not settled and not expired, with a resolved price that is
    the BigNumber zero. *)
Theorem X11_proposalRejected_iff account isLoading questionDetails :
  questionState account isLoading questionDetails = proposalRejected <->
  Js.truthy_string account = true /\ isLoading = false
  /\ exists details e,
      questionDetails = Some details
      /\ proposalEvent details = PEObject e
      /\ isDisputed e = true /\ isSettled e = false /\ isExpired e = false
      /\ resolvedPrice e = Some 0.
Proof.
  table account isLoading questionDetails.
  all: repeat split; auto; exists details, e; repeat split; auto.
Qed.

(** X12.  [waitingForProposal] is shown exactly when the status has no
    proposal event, or when the event is disputed, not settled, not expired
    and has no resolved price. *)
Theorem X12_waitingForProposal_iff account isLoading questionDetails :
  questionState account isLoading questionDetails = waitingForProposal <->
  Js.truthy_string account = true /\ isLoading = false
  /\ exists details,
      questionDetails = Some details
      /\ (proposalEvent details = PEUndefined
          \/ exists e,
              proposalEvent details = PEObject e
              /\ isDisputed e = true /\ isSettled e = false
              /\ isExpired e = false /\ resolvedPrice e = None).
Proof.
  table account isLoading questionDetails.
  all: repeat split; auto; exists details; split; auto; right; exists e;
    repeat split; auto.
Qed.

(** X13.  [error] is shown exactly when there is no status, when the
    proposal event is the empty object, or when the event is neither
    expired nor settled and is either undisputed (a proposal inside its
    dispute window) or disputed with a non-zero resolved price. *)
Theorem X13_error_iff account isLoading questionDetails :
  questionState account isLoading questionDetails = error <->
  Js.truthy_string account = true /\ isLoading = false
  /\ (questionDetails = None
      \/ exists details,
          questionDetails = Some details
          /\ (proposalEvent details = PEEmptyObject
              \/ exists e,
                  proposalEvent details = PEObject e
                  /\ isExpired e = false /\ isSettled e = false
                  /\ (isDisputed e = false
                      \/ exists z, resolvedPrice e = Some z /\ z <> 0))).
Proof.
  table account isLoading questionDetails.
  all: repeat split; auto.
  all: try (right; exists details; split; auto; fail).
  all: right; exists details; split; auto; right; exists e;
    repeat split; auto.
  all: right; exists z; auto.
Qed.

End StateTable.

(* ================================================================= *)
(** ** The network check *)

Section NetworkFacts.

Import Network.

Lemma isUnknownChain_true code :
  isUnknownChain code = true <-> code = Some 4902.
Proof.
  destruct code as [c|]; simpl; [|split; discriminate].
  rewrite Z.eqb_eq. split; [now intros ->|now intros [= ->]].
Qed.

End NetworkFacts.

(** X14.  [ensureRightNetwork] returns normally exactly when the provider
    is already on the requested chain, or when the wallet is MetaMask and
    [window.ethereum.chainId] is the requested chain after the sleep.  What
    the wallet answered to the switch request plays no part: a rejected
    switch is only logged. *)
Theorem X14_ensureRightNetwork_returns_iff chainIdInt networkKnown w :
  fst (Network.ensureRightNetwork chainIdInt networkKnown w) = inr tt <->
  Network.strictEq (provider_chainId w) chainIdInt = true
  \/ (window_ethereum w = true /\ provider_isMetaMask w = true
      /\ chainId_after w = Some ("0x" ++ Network.toString16 chainIdInt)%string).
Proof.
  unfold Network.ensureRightNetwork.
  set (hex := ("0x" ++ Network.toString16 chainIdInt)%string).
  destruct (Network.strictEq (provider_chainId w) chainIdInt) eqn:Eq.
  - cbn [fst]. split; auto.
  - destruct (window_ethereum w), (provider_isMetaMask w); cbn [negb orb fst].
    2-4: split; [discriminate|intros [H|(H1 & H2 & _)]; discriminate].
    destruct (chainId_after w) as [c|].
    + destruct (String.eqb_spec c hex) as [->|Hne]; cbn [fst].
      * split; [intros _; right; repeat split|reflexivity].
      * split; [discriminate|].
        intros [H|(_ & _ & [= H])]; [discriminate|]. now elim Hne.
    + cbn [fst]. split; [discriminate|].
      intros [H|(_ & _ & H)]; discriminate.
Qed.

(** X15.  The wallet receives nothing when the provider is already on the
    requested chain or when the wallet is not MetaMask; otherwise it
    receives the switch request first, and the add-chain request follows
    exactly when the switch was rejected with code 4902 and the chain is
    known to the page. *)
Theorem X15_requests_sent_to_the_wallet chainIdInt networkKnown w :
  let requests := snd (Network.ensureRightNetwork chainIdInt networkKnown w) in
  let hex := ("0x" ++ Network.toString16 chainIdInt)%string in
  (requests = [] <->
   Network.strictEq (provider_chainId w) chainIdInt = true
   \/ window_ethereum w = false \/ provider_isMetaMask w = false)
  /\ (requests <> [] ->
      (request_switch w hex = Some (Some 4902) /\ networkKnown = true ->
       requests = [SwitchEthereumChain hex; AddEthereumChain hex])
      /\ (~ (request_switch w hex = Some (Some 4902) /\ networkKnown = true) ->
          requests = [SwitchEthereumChain hex])).
Proof.
  cbv zeta. unfold Network.ensureRightNetwork.
  set (hex := ("0x" ++ Network.toString16 chainIdInt)%string).
  destruct (Network.strictEq (provider_chainId w) chainIdInt) eqn:Eq.
  { cbn [snd]. split; [split; auto|]. intros H; now elim H. }
  destruct (window_ethereum w), (provider_isMetaMask w); cbn [negb orb snd].
  2-4: split; [split; auto|]; intros H; now elim H.
  assert (R : forall l : list WalletRequest,
             snd (match chainId_after w with
                  | Some c => if String.eqb c hex
                              then (@inr UiError unit tt, l)
                              else (inl CouldNotSwitch, l)
                  | None => (inl CouldNotSwitch, l)
                  end) = l).
  { intros l. destruct (chainId_after w) as [c|]; [|reflexivity].
    destruct (String.eqb c hex); reflexivity. }
  rewrite R. clear R.
  destruct (request_switch w hex) as [code|] eqn:Es.
  - destruct (Network.isUnknownChain code) eqn:Eu; cbn [andb].
    + apply isUnknownChain_true in Eu. subst code.
      destruct networkKnown.
      * split; [split; [discriminate|intros [H|[H|H]]; discriminate]|].
        intros _. split; [reflexivity|]. intros H. elim H. auto.
      * split; [split; [discriminate|intros [H|[H|H]]; discriminate]|].
        intros _. split; [intros [_ H]; discriminate|reflexivity].
    + split; [split; [discriminate|intros [H|[H|H]]; discriminate]|].
      intros _. split; [|reflexivity].
      intros [[= ->] _]. discriminate Eu.
  - split; [split; [discriminate|intros [H|[H|H]]; discriminate]|].
    intros _. split; [intros [H _]; discriminate|reflexivity].
Qed.

Lemma X15_witness :
  snd (Network.ensureRightNetwork (Some 137) true Stage.metaMaskWithoutPolygon)
  = [SwitchEthereumChain "0x89"; AddEthereumChain "0x89"].
Proof.
  apply (X15_requests_sent_to_the_wallet (Some 137) true
           Stage.metaMaskWithoutPolygon).
  - vm_compute. discriminate.
  - split; reflexivity.
Defined.

(* ================================================================= *)
(** ** The template *)

Section TemplateFacts.

Import HandleOutcome Template.

Lemma stateIs_eq s x : stateIs s x = true <-> s = x.
Proof. destruct s, x; cbv; split; intros H; congruence. Qed.

(** Without a status the state is none of the two that show a button. *)
Lemma questionState_needs_details account isLoading :
  questionState account isLoading None <> waitingForProposal
  /\ questionState account isLoading None <> proposalApproved.
Proof.
  unfold questionState.
  destruct (negb (Js.truthy_string account)); [split; discriminate|].
  destruct isLoading; split; discriminate.
Qed.

(** The two states that are declared and have no branch. *)
Lemma questionState_declared_only account isLoading questionDetails :
  questionState account isLoading questionDetails <> disputedButNotResolved
  /\ questionState account isLoading questionDetails <> disputedResolvedValid.
Proof.
  unfold questionState.
  destruct (negb (Js.truthy_string account)); [split; discriminate|].
  destruct isLoading; [split; discriminate|].
  destruct questionDetails as [details|]; [|split; discriminate].
  destruct (proposalEvent details) as [| |e]; cbv zeta;
    [split; discriminate| |];
    repeat match goal with
           | |- context [if ?b then _ else _] => destruct b
           end; split; discriminate.
Qed.

End TemplateFacts.

(** X16.  The template renders at most one action button, and it renders
    one exactly when the provider is on the right chain or the wallet is
    MetaMask and the state is [waitingForProposal] or [proposalApproved];
    in state [waitingForProposal] it is the bond approval when the status
    asks for it and the proposal submission otherwise, in state
    [proposalApproved] it is the execution. *)
Theorem X16_one_action_button
    account isLoading questionDetails chainIdInt w :
  let state := HandleOutcome.questionState account isLoading questionDetails in
  let gate := Network.connectedToRightChain chainIdInt w || Network.usingMetaMask w in
  filter Template.isButton
    (Template.render account isLoading questionDetails chainIdInt w)
  = if gate
    then match state with
         | HandleOutcome.waitingForProposal =>
             if Template.needsBondApprovalIs true questionDetails
             then [Template.ApproveBondButton]
             else [Template.SubmitProposalButton]
         | HandleOutcome.proposalApproved => [Template.ExecuteButton]
         | _ => []
         end
    else [].
Proof.
  cbv zeta. unfold Template.render.
  destruct questionDetails as [details|].
  - unfold Template.needsBondApprovalIs.
    destruct (needsBondApproval details);
      destruct (HandleOutcome.questionState account isLoading (Some details));
      destruct (Network.connectedToRightChain chainIdInt w || Network.usingMetaMask w);
      reflexivity.
  - pose proof (questionState_needs_details account isLoading) as [H1 H2].
    destruct (HandleOutcome.questionState account isLoading None);
      try congruence;
      destruct (Network.connectedToRightChain chainIdInt w || Network.usingMetaMask w);
      reflexivity.
Qed.

(** X17.  Rendering fails only where the request to switch chain has to
    name a network that [networks.json] does not have: the provider is on
    another chain, the wallet is not MetaMask, and the state is neither
    [loading] nor [noWalletConnection]; the error is then a [TypeError].
    Everywhere else the template renders, and it renders at least one
    element: a label, the spinner, a button or the request to switch
    chain. *)
Theorem X17_template_renders_unless_network_unnamed
    networkEntry account isLoading questionDetails chainIdInt w :
  let state := HandleOutcome.questionState account isLoading questionDetails in
  let gate := Network.connectedToRightChain chainIdInt w || Network.usingMetaMask w in
  match Template.renderChecked networkEntry account isLoading questionDetails
          chainIdInt w with
  | inr elements =>
      elements = Template.render account isLoading questionDetails chainIdInt w
      /\ elements <> []
      /\ (networkEntry = None ->
          gate = true \/ state = HandleOutcome.loading
          \/ state = HandleOutcome.noWalletConnection)
  | inl e =>
      e = TypeError /\ networkEntry = None /\ gate = false
      /\ state <> HandleOutcome.loading
      /\ state <> HandleOutcome.noWalletConnection
  end.
Proof.
  cbv zeta. unfold Template.renderChecked, Template.networkName, Template.render.
  destruct questionDetails as [details|].
  - unfold Template.needsBondApprovalIs.
    pose proof (questionState_declared_only account isLoading (Some details))
      as [N1 N2].
    destruct networkEntry as [name|];
      destruct (needsBondApproval details);
      destruct (HandleOutcome.questionState account isLoading (Some details));
      try congruence;
      destruct (Network.connectedToRightChain chainIdInt w || Network.usingMetaMask w);
      cbv; repeat split; try discriminate; auto.
  - pose proof (questionState_needs_details account isLoading) as [H1 H2].
    pose proof (questionState_declared_only account isLoading None) as [N1 N2].
    destruct networkEntry as [name|];
      destruct (HandleOutcome.questionState account isLoading None);
      try congruence;
      destruct (Network.connectedToRightChain chainIdInt w || Network.usingMetaMask w);
      cbv; repeat split; try discriminate; auto.
Qed.

(** X18.  The template and the network check agree: where the request to
    switch chain is rendered, [ensureRightNetwork] throws without asking the
    wallet anything; where a button is rendered, [ensureRightNetwork] does
    not refuse the wallet. *)
Theorem X18_template_gate_matches_network_check
    account isLoading questionDetails chainIdInt networkKnown w :
  (In Template.SwitchChainLabel
      (Template.render account isLoading questionDetails chainIdInt w) ->
   Network.ensureRightNetwork chainIdInt networkKnown w = (inl WrongChain, []))
  /\ (existsb Template.isButton
        (Template.render account isLoading questionDetails chainIdInt w) = true ->
      fst (Network.ensureRightNetwork chainIdInt networkKnown w) <> inl WrongChain).
Proof.
  assert (G : Network.connectedToRightChain chainIdInt w || Network.usingMetaMask w
              = false ->
              Network.ensureRightNetwork chainIdInt networkKnown w
              = (inl WrongChain, [])).
  { unfold Network.connectedToRightChain, Network.usingMetaMask,
      Network.ensureRightNetwork.
    destruct (Network.strictEq (provider_chainId w) chainIdInt); [discriminate|].
    destruct (window_ethereum w), (provider_isMetaMask w);
      simpl; intros H; try discriminate; reflexivity. }
  assert (G' : Network.connectedToRightChain chainIdInt w || Network.usingMetaMask w
               = true ->
               fst (Network.ensureRightNetwork chainIdInt networkKnown w)
               <> inl WrongChain).
  { unfold Network.connectedToRightChain, Network.usingMetaMask,
      Network.ensureRightNetwork.
    destruct (Network.strictEq (provider_chainId w) chainIdInt); [discriminate|].
    destruct (window_ethereum w), (provider_isMetaMask w);
      cbn [negb orb andb fst]; intros H; try discriminate.
    destruct (chainId_after w) as [c|]; [|discriminate].
    destruct (String.eqb c _); discriminate. }
  split.
  - intros H. apply G.
    destruct (Network.connectedToRightChain chainIdInt w || Network.usingMetaMask w)
      eqn:Eg; [|reflexivity].
    exfalso. unfold Template.render in H. rewrite Eg in H.
    unfold Template.shown in H.
    repeat match type of H with
           | context [if ?b then _ else _] => destruct b
           end;
      simpl in H; intuition discriminate.
  - intros H. apply G'.
    destruct (Network.connectedToRightChain chainIdInt w || Network.usingMetaMask w)
      eqn:Eg; [reflexivity|].
    exfalso. unfold Template.render in H. rewrite Eg in H.
    unfold Template.shown in H.
    repeat match type of H with
           | context [if ?b then _ else _] => destruct b
           end;
      simpl in H; discriminate.
Qed.

(* ================================================================= *)
(** ** The actions of the component *)

Section ActionFacts.

Context {BatchTransaction : Type} (tuple : BatchTransaction -> Transaction).

(** [getTransactions] fails exactly on a batch without transactions. *)
Lemma getTransactions_fails batches :
  In [] batches -> Actions.getTransactions tuple batches = inl TypeError.
Proof.
  induction batches as [|batch rest IH]; [intros []|].
  intros [->|Hin]; [reflexivity|]. simpl.
  destruct batch; [reflexivity|]. now rewrite (IH Hin).
Qed.

Lemma getTransactions_firsts batches :
  ~ In [] batches ->
  exists txs,
    Actions.getTransactions tuple batches = inr txs
    /\ Forall2 (fun batch t => exists t0 rest, batch = t0 :: rest /\ t = tuple t0)
         batches txs.
Proof.
  induction batches as [|batch rest IH]; intros Hn.
  - exists []. split; [reflexivity|constructor].
  - destruct batch as [|t0 more]; [elim Hn; now left|].
    destruct IH as (txs & E & F); [intros H; apply Hn; now right|].
    exists (tuple t0 :: txs). simpl. rewrite E. split; [reflexivity|].
    constructor; [now exists t0, more|exact F].
Qed.

End ActionFacts.

(** X19.  [getTransactions] throws exactly when some batch has no
    transaction; otherwise it returns one tuple per batch, built from the
    first transaction of the batch: the other transactions of a batch are
    not part of what is proposed, executed or looked up. *)
Theorem X19_getTransactions_takes_the_first_of_each_batch
    (BatchTransaction : Type) (tuple : BatchTransaction -> Transaction)
    (batches : list (list BatchTransaction)) :
  (In [] batches -> Actions.getTransactions tuple batches = inl TypeError)
  /\ (~ In [] batches ->
      exists txs,
        Actions.getTransactions tuple batches = inr txs
        /\ Forall2
             (fun batch t => exists t0 rest, batch = t0 :: rest /\ t = tuple t0)
             batches txs).
Proof.
  split; [apply getTransactions_fails|apply getTransactions_firsts].
Qed.

(** X20.  [updateDetails] never throws and always ends with
    [loading = false].  The status is replaced when [getTransactions] and
    the plugin both succeed; when either fails the previous status stays in
    place.  The pending counter and the progress flags are untouched. *)
Theorem X20_updateDetails_keeps_the_old_status_on_failure
    (BatchTransaction : Type) (tuple : BatchTransaction -> Transaction)
    (world : @Actions.World BatchTransaction) (v : View) :
  exists effects,
    Actions.updateDetails tuple world v
    = (inr tt,
       {| v_loading := false;
          v_actionInProgress := v_actionInProgress v;
          v_action2InProgress := v_action2InProgress v;
          v_questionDetails := Outcome.refreshed tuple world (v_questionDetails v);
          v_pendingCount := v_pendingCount v;
          v_log := v_log v ++ effects |}).
Proof.
  cbv [Actions.updateDetails Actions.getTransactions'
       Ui.bind Ui.ret Ui.throw Ui.modify Ui.try_catch Ui.try_finally
       Ui.log Ui.set_loading Ui.set_questionDetails Outcome.refreshed].
  destruct (Actions.getTransactions tuple (Actions.batches world)) as [terr|txs].
  - exists []. cbn. now rewrite app_nil_r.
  - destruct (Actions.getExecutionDetails world txs) as [fresh|];
      exists [ExecutionDetailsRequested txs]; reflexivity.
Qed.

Ltac ui_unfold :=
  cbv [Actions.approveBond Actions.submitProposal Actions.executeProposal
       Actions.updateDetails Actions.awaitRightNetwork Actions.getTransactions'
       Ui.bind Ui.ret Ui.throw Ui.get Ui.modify Ui.try_catch Ui.try_finally
       Ui.log Ui.set_loading Ui.set_actionInProgress Ui.set_action2InProgress
       Ui.set_questionDetails Ui.add_pendingCount Ui.await
       Outcome.networkOk Outcome.transactionsOk Outcome.submitted
       Outcome.approveBondStarts Outcome.refreshed
       v_loading v_actionInProgress v_action2InProgress v_questionDetails
       v_pendingCount v_log].

Ltac ui_cases tuple world :=
  destruct (Network.ensureRightNetwork (Actions.chainIdInt world)
              (Actions.networkKnown world) (Actions.wallet world))
    as [[err|[]] requests];
  destruct (Actions.plugin_call world), (Actions.first_next world),
           (Actions.second_next world);
  destruct (Actions.getTransactions tuple (Actions.batches world)) as [terr|txs];
  try destruct (Actions.getExecutionDetails world txs) as [fresh|];
  cbn [fst snd andb negb orb v_loading v_actionInProgress v_action2InProgress
       v_questionDetails v_pendingCount v_log].

(** X21.  [approveBond] and [submitProposal] leave the pending counter as
    they found it, except in one case: when the transaction was sent (the
    first [next()] resolved) and its confirmation failed (the second
    [next()] rejected), the counter stays incremented by one. *)
Theorem X21_failed_confirmation_leaves_pending_count_incremented
    (BatchTransaction : Type) (tuple : BatchTransaction -> Transaction)
    (world : @Actions.World BatchTransaction) (v : View) :
  v_pendingCount (snd (Actions.approveBond tuple world v))
  = v_pendingCount v
    + (if Outcome.approveBondStarts v && Outcome.networkOk world
          && Outcome.submitted world && negb (Actions.second_next world)
       then 1 else 0)
  /\ v_pendingCount (snd (Actions.submitProposal tuple world v))
     = v_pendingCount v
       + (if Actions.isAuthenticated world && Outcome.networkOk world
             && Outcome.transactionsOk tuple world
             && Outcome.submitted world && negb (Actions.second_next world)
          then 1 else 0).
Proof.
  split.
  - destruct v as [ld a1 a2 qd pc lg]. ui_unfold.
    destruct qd as [details|]; [|cbn; lia].
    destruct (Js.truthy_string (oracle details)); [|cbn; lia].
    ui_cases tuple world; lia.
  - destruct v as [ld a1 a2 qd pc lg]. ui_unfold.
    destruct (Actions.isAuthenticated world); [|cbn; lia].
    ui_cases tuple world; lia.
Qed.

(** X22.  [executeProposal] decrements the pending counter in its [catch]
    block whatever failed: when the failure comes before the increment
    ([getTransactions] throws, the plugin call fails or the first [next()]
    rejects) the counter ends one below its value before the action.  In
    every other case it ends unchanged. *)
Theorem X22_executeProposal_can_lower_the_pending_count
    (BatchTransaction : Type) (tuple : BatchTransaction -> Transaction)
    (world : @Actions.World BatchTransaction) (v : View) :
  v_pendingCount (snd (Actions.executeProposal tuple world v))
  = v_pendingCount v
    + (if Actions.isAuthenticated world && Outcome.networkOk world
          && negb (Outcome.transactionsOk tuple world && Outcome.submitted world)
       then -1 else 0).
Proof.
  destruct v as [ld a1 a2 qd pc lg]. ui_unfold.
  destruct (Actions.isAuthenticated world); [|cbn; lia].
  ui_cases tuple world; lia.
Qed.

(** X23.  In the three actions the notification is shown exactly when the
    second [next()] has resolved, and the status is requested again exactly
    then (and when [getTransactions] returns): never before the
    confirmation. *)
Theorem X23_refresh_only_after_confirmation
    (BatchTransaction : Type) (tuple : BatchTransaction -> Transaction)
    (world : @Actions.World BatchTransaction) (v : View) :
  let confirmed :=
    Outcome.networkOk world && Outcome.submitted world
    && Actions.second_next world in
  let before := existsb isRefresh (v_log v) in
  let noted := existsb isNotified (v_log v) in
  (existsb isNotified (v_log (snd (Actions.approveBond tuple world v)))
   = noted || (Outcome.approveBondStarts v && confirmed)
   /\ existsb isRefresh (v_log (snd (Actions.approveBond tuple world v)))
      = before || (Outcome.approveBondStarts v && confirmed
                   && Outcome.transactionsOk tuple world))
  /\ (existsb isNotified (v_log (snd (Actions.submitProposal tuple world v)))
      = noted || (Actions.isAuthenticated world && confirmed
                  && Outcome.transactionsOk tuple world)
      /\ existsb isRefresh (v_log (snd (Actions.submitProposal tuple world v)))
         = before || (Actions.isAuthenticated world && confirmed
                      && Outcome.transactionsOk tuple world))
  /\ (existsb isNotified (v_log (snd (Actions.executeProposal tuple world v)))
      = noted || (Actions.isAuthenticated world && confirmed
                  && Outcome.transactionsOk tuple world)
      /\ existsb isRefresh (v_log (snd (Actions.executeProposal tuple world v)))
         = before || (Actions.isAuthenticated world && confirmed
                      && Outcome.transactionsOk tuple world)).
Proof.
  assert (W : forall requests,
             existsb isRefresh (map Wallet requests) = false
             /\ existsb isNotified (map Wallet requests) = false).
  { induction requests; simpl; auto. }
  destruct v as [ld a1 a2 qd pc lg]. cbv zeta. repeat split.
  1-2: ui_unfold;
    (destruct qd as [details|];
     [|cbn; now rewrite orb_false_r]);
    (destruct (Js.truthy_string (oracle details));
     [|cbn; now rewrite orb_false_r]);
    ui_cases tuple world;
    rewrite ?existsb_app; cbn [existsb isRefresh isNotified orb];
    rewrite ?existsb_app;
    rewrite ?(proj1 (W _)), ?(proj2 (W _));
    rewrite ?orb_false_r, ?orb_true_r; reflexivity.
  all: ui_unfold;
    (destruct (Actions.isAuthenticated world);
     [|cbn; now rewrite orb_false_r]);
    ui_cases tuple world;
    rewrite ?existsb_app; cbn [existsb isRefresh isNotified orb];
    rewrite ?existsb_app;
    rewrite ?(proj1 (W _)), ?(proj2 (W _));
    rewrite ?orb_false_r, ?orb_true_r; reflexivity.
Qed.

(** X24.  An action that starts ends with its progress flag [null] and
    without an exception, whatever fails on the way.  [approveBond] called
    before any status has arrived is the exception: reading
    [questionDetails.value.oracle] throws outside the [try], and the view
    is left as it was. *)
Theorem X24_actions_reset_their_progress_flag
    (BatchTransaction : Type) (tuple : BatchTransaction -> Transaction)
    (world : @Actions.World BatchTransaction) (v : View) :
  (match v_questionDetails v with
   | None => Actions.approveBond tuple world v = (inl TypeError, v)
   | Some _ =>
       fst (Actions.approveBond tuple world v) = inr tt
       /\ v_actionInProgress (snd (Actions.approveBond tuple world v))
          = if Outcome.approveBondStarts v then ProgressNull
            else v_actionInProgress v
   end)
  /\ (fst (Actions.submitProposal tuple world v) = inr tt
      /\ v_actionInProgress (snd (Actions.submitProposal tuple world v))
         = if Actions.isAuthenticated world then ProgressNull
           else v_actionInProgress v)
  /\ (fst (Actions.executeProposal tuple world v) = inr tt
      /\ v_action2InProgress (snd (Actions.executeProposal tuple world v))
         = if Actions.isAuthenticated world then ProgressNull
           else v_action2InProgress v).
Proof.
  destruct v as [ld a1 a2 qd pc lg]. repeat split.
  - ui_unfold. destruct qd as [details|]; [|reflexivity].
    destruct (Js.truthy_string (oracle details)); [|split; reflexivity].
    ui_cases tuple world; split; reflexivity.
  - ui_unfold. destruct (Actions.isAuthenticated world); [|reflexivity].
    ui_cases tuple world; reflexivity.
  - ui_unfold. destruct (Actions.isAuthenticated world); [|reflexivity].
    ui_cases tuple world; reflexivity.
  - ui_unfold. destruct (Actions.isAuthenticated world); [|reflexivity].
    ui_cases tuple world; reflexivity.
  - ui_unfold. destruct (Actions.isAuthenticated world); [|reflexivity].
    ui_cases tuple world; reflexivity.
Qed.

(* ================================================================= *)
(** ** oSnap: the contract-interaction form *)

Section ContractInteractionFacts.

Import ContractInteraction.

Context {Method Tx : Type} (lib : @Library Method Tx).

Lemma selectedMethod_first first rest r :
  r_methods r = first :: rest ->
  r_selectedMethodName r = name lib first ->
  selectedMethod lib r = Some first.
Proof.
  intros Hm Hn. unfold selectedMethod. rewrite Hm, Hn. simpl.
  now rewrite String.eqb_refl.
Qed.

Lemma assign_same arr index v :
  nth_error (assign arr index v) index = Some (Some v).
Proof.
  revert arr. induction index as [|i IH]; intros [|x rest]; simpl; auto.
Qed.

Lemma assign_other arr index v other :
  other <> index ->
  nth other (assign arr index v) None = nth other arr None.
Proof.
  revert arr other. induction index as [|i IH]; intros [|x rest] [|j] Hne;
    simpl; try congruence; try reflexivity.
  - now destruct j.
  - rewrite IH by congruence. now destruct j.
  - apply IH. congruence.
Qed.

Lemma updateTransaction_keeps r :
  r_parameters (updateTransaction lib r) = r_parameters r
  /\ r_isValueValid (updateTransaction lib r) = r_isValueValid r
  /\ r_isAbiValid (updateTransaction lib r) = r_isAbiValid r
  /\ r_methods (updateTransaction lib r) = r_methods r
  /\ r_selectedMethodName (updateTransaction lib r) = r_selectedMethodName r.
Proof.
  unfold updateTransaction, not_ref. cbn [orb].
  destruct (not_selectedAbi r); [auto 6|].
  destruct (r_selectedAbi r) as [abi|]; [|auto 6].
  destruct (createContractInteractionTransaction lib (r_to r) (r_value r) abi
              (selectedMethod lib r) (r_parameters r)) as [t|]; [|auto 6].
  destruct (validateTransaction lib t); auto 6.
Qed.

End ContractInteractionFacts.

(** X26.  The guard of [updateTransaction] negates the refs [isValueValid]
    and [isAbiValid] themselves, not their values, so what the two flags
    hold never stops an emission: with the flags changed the same
    transactions are emitted.  In particular [updateValue] marks an amount
    that does not parse as invalid and still emits what [updateTransaction]
    emits for the new value. *)
Theorem X26_validity_flags_never_block_an_emission
    (Method Tx : Type) (lib : @ContractInteraction.Library Method Tx)
    (r : @ContractInteraction.Refs Method Tx) :
  (forall abiValid valueValid,
      ContractInteraction.r_emitted
        (ContractInteraction.updateTransaction lib
           (ContractInteraction.withFlags abiValid valueValid r))
      = ContractInteraction.r_emitted
          (ContractInteraction.updateTransaction lib r))
  /\ (forall newValue,
        ContractInteraction.r_isValueValid
          (ContractInteraction.updateValue lib newValue r)
        = ContractInteraction.parseAmount lib newValue
        /\ ContractInteraction.r_emitted
             (ContractInteraction.updateValue lib newValue r)
           = ContractInteraction.r_emitted
               (ContractInteraction.updateTransaction lib
                  (ContractInteraction.withValue newValue r))).
Proof.
  split.
  - intros abiValid valueValid.
    unfold ContractInteraction.updateTransaction, ContractInteraction.withFlags,
      ContractInteraction.not_ref, ContractInteraction.not_selectedAbi,
      ContractInteraction.selectedMethod.
    cbn [orb ContractInteraction.r_selectedAbi ContractInteraction.r_to
         ContractInteraction.r_value ContractInteraction.r_methods
         ContractInteraction.r_selectedMethodName
         ContractInteraction.r_parameters].
    destruct (ContractInteraction.r_selectedAbi r) as [abi|]; [|reflexivity].
    destruct (negb (Js.truthy_string abi)); [reflexivity|].
    match goal with
    | |- context [ContractInteraction.createContractInteractionTransaction
                    ?l ?a ?b ?c ?d ?e] =>
        destruct (ContractInteraction.createContractInteractionTransaction
                    l a b c d e) as [t|]; [|reflexivity]
    end.
    destruct (ContractInteraction.validateTransaction lib t); reflexivity.
  - intros newValue. split.
    + unfold ContractInteraction.updateValue.
      match goal with
      | |- ContractInteraction.r_isValueValid
             (ContractInteraction.updateTransaction _ ?x) = _ =>
          now rewrite (proj1 (proj2 (updateTransaction_keeps lib x)))
      end.
    + unfold ContractInteraction.updateValue,
        ContractInteraction.updateTransaction, ContractInteraction.withValue,
        ContractInteraction.not_ref, ContractInteraction.not_selectedAbi,
        ContractInteraction.selectedMethod.
      cbn [orb ContractInteraction.r_selectedAbi ContractInteraction.r_to
           ContractInteraction.r_value ContractInteraction.r_methods
           ContractInteraction.r_selectedMethodName
           ContractInteraction.r_parameters].
      destruct (ContractInteraction.r_selectedAbi r) as [abi|]; [|reflexivity].
      destruct (negb (Js.truthy_string abi)); [reflexivity|].
      match goal with
      | |- context [ContractInteraction.createContractInteractionTransaction
                      ?l ?a ?b ?c ?d ?e] =>
          destruct (ContractInteraction.createContractInteractionTransaction
                      l a b c d e) as [t|]; [|reflexivity]
      end.
      destruct (ContractInteraction.validateTransaction lib t); reflexivity.
Qed.

(** X27.  After [updateAbi] the ABI is marked valid exactly when
    [getABIWriteFunctions] returned at least one write function: an ABI
    that does not parse and an ABI without write functions are both marked
    invalid. *)
Theorem X27_abi_without_write_functions_is_invalid
    (Method Tx : Type) (lib : @ContractInteraction.Library Method Tx)
    (r : @ContractInteraction.Refs Method Tx) (newAbi : string) :
  ContractInteraction.r_isAbiValid (ContractInteraction.updateAbi lib newAbi r)
  = true
  <-> exists first rest,
      ContractInteraction.getABIWriteFunctions lib newAbi = Some (first :: rest).
Proof.
  unfold ContractInteraction.updateAbi.
  match goal with
  | |- ContractInteraction.r_isAbiValid
         (ContractInteraction.updateTransaction _ ?x) = _ <-> _ =>
      rewrite (proj1 (proj2 (proj2 (updateTransaction_keeps lib x))))
  end.
  destruct (ContractInteraction.getABIWriteFunctions lib newAbi) as [[|first rest]|].
  - simpl. split; [discriminate|intros (f & l & [=])].
  - unfold ContractInteraction.updateMethod.
    match goal with
    | |- ContractInteraction.r_isAbiValid
           (ContractInteraction.updateTransaction _ ?x) = _ <-> _ =>
        rewrite (proj1 (proj2 (proj2 (updateTransaction_keeps lib x))))
    end.
    simpl. split; [intros _; now exists first, rest|reflexivity].
  - simpl. split; [discriminate|intros (f & l & [=])].
Qed.

(** X28.  With a non-empty ABI that has write functions, [updateAbi]
    selects the first function, empties the parameters and calls
    [updateTransaction] twice, once through [updateMethod] and once at its
    end: a transaction that is accepted is emitted two times. *)
Theorem X28_updateAbi_emits_twice
    (Method Tx : Type) (lib : @ContractInteraction.Library Method Tx)
    (r : @ContractInteraction.Refs Method Tx) (newAbi : string)
    (first : Method) (rest : list Method) (t : Tx) :
  ContractInteraction.getABIWriteFunctions lib newAbi = Some (first :: rest) ->
  Js.truthy_string newAbi = true ->
  ContractInteraction.createContractInteractionTransaction lib
    (ContractInteraction.r_to r) (ContractInteraction.r_value r) newAbi
    (Some first) [] = Some t ->
  ContractInteraction.validateTransaction lib t = true ->
  ContractInteraction.r_emitted (ContractInteraction.updateAbi lib newAbi r)
  = ContractInteraction.r_emitted r ++ [t; t]
  /\ ContractInteraction.r_parameters (ContractInteraction.updateAbi lib newAbi r)
     = []
  /\ ContractInteraction.r_selectedMethodName
       (ContractInteraction.updateAbi lib newAbi r)
     = ContractInteraction.name lib first.
Proof.
  intros Hf Ha Hc Hv.
  unfold ContractInteraction.updateAbi. rewrite Hf.
  unfold ContractInteraction.updateMethod, ContractInteraction.set_abi.
  cbn [ContractInteraction.r_to ContractInteraction.r_selectedAbi
       ContractInteraction.r_isAbiValid ContractInteraction.r_value
       ContractInteraction.r_isValueValid ContractInteraction.r_methods
       ContractInteraction.r_selectedMethodName
       ContractInteraction.r_parameters ContractInteraction.r_emitted].
  assert (S : forall e,
             ContractInteraction.updateTransaction lib
               {| ContractInteraction.r_to := ContractInteraction.r_to r;
                  ContractInteraction.r_selectedAbi := Some newAbi;
                  ContractInteraction.r_isAbiValid := true;
                  ContractInteraction.r_value := ContractInteraction.r_value r;
                  ContractInteraction.r_isValueValid :=
                    ContractInteraction.r_isValueValid r;
                  ContractInteraction.r_methods := first :: rest;
                  ContractInteraction.r_selectedMethodName :=
                    ContractInteraction.name lib first;
                  ContractInteraction.r_parameters := [];
                  ContractInteraction.r_emitted := e |}
             = {| ContractInteraction.r_to := ContractInteraction.r_to r;
                  ContractInteraction.r_selectedAbi := Some newAbi;
                  ContractInteraction.r_isAbiValid := true;
                  ContractInteraction.r_value := ContractInteraction.r_value r;
                  ContractInteraction.r_isValueValid :=
                    ContractInteraction.r_isValueValid r;
                  ContractInteraction.r_methods := first :: rest;
                  ContractInteraction.r_selectedMethodName :=
                    ContractInteraction.name lib first;
                  ContractInteraction.r_parameters := [];
                  ContractInteraction.r_emitted := e ++ [t] |}).
  { intros e.
    unfold ContractInteraction.updateTransaction, ContractInteraction.not_ref,
      ContractInteraction.not_selectedAbi.
    cbn [orb ContractInteraction.r_selectedAbi ContractInteraction.r_to
         ContractInteraction.r_value ContractInteraction.r_parameters].
    rewrite Ha. cbn [negb].
    rewrite (selectedMethod_first lib first rest) by reflexivity.
    rewrite Hc, Hv. reflexivity. }
  rewrite !S. cbn. rewrite <- app_assoc. auto.
Qed.

Lemma X28_witness :
  ContractInteraction.r_emitted
    (ContractInteraction.updateAbi ContractInteraction.sampleLibrary "[{}]"
       ContractInteraction.initial)
  = ContractInteraction.r_emitted ContractInteraction.initial
    ++ ["0x6B175474E89094C44Da98b954EedeAC495271d0F.approve:0";
        "0x6B175474E89094C44Da98b954EedeAC495271d0F.approve:0"]
  /\ ContractInteraction.r_parameters
       (ContractInteraction.updateAbi ContractInteraction.sampleLibrary "[{}]"
          ContractInteraction.initial) = []
  /\ ContractInteraction.r_selectedMethodName
       (ContractInteraction.updateAbi ContractInteraction.sampleLibrary "[{}]"
          ContractInteraction.initial)
     = ContractInteraction.name ContractInteraction.sampleLibrary "approve".
Proof.
  apply (X28_updateAbi_emits_twice string string
           ContractInteraction.sampleLibrary ContractInteraction.initial
           "[{}]" "approve" ["transfer"]
           "0x6B175474E89094C44Da98b954EedeAC495271d0F.approve:0");
    reflexivity.
Defined.

(** X29.  [updateParameter(index, v)] stores [v] at position [index],
    growing the array when it is shorter, and leaves every other position as
    it was. *)
Theorem X29_updateParameter_sets_one_position
    (Method Tx : Type) (lib : @ContractInteraction.Library Method Tx)
    (r : @ContractInteraction.Refs Method Tx) (index : nat) (v : string) :
  nth_error
    (ContractInteraction.r_parameters
       (ContractInteraction.updateParameter lib index v r)) index
  = Some (Some v)
  /\ forall other,
      other <> index ->
      nth other
        (ContractInteraction.r_parameters
           (ContractInteraction.updateParameter lib index v r)) None
      = nth other (ContractInteraction.r_parameters r) None.
Proof.
  unfold ContractInteraction.updateParameter.
  match goal with
  | |- context [ContractInteraction.updateTransaction _ ?x] =>
      rewrite (proj1 (updateTransaction_keeps lib x))
  end.
  simpl. split; [apply assign_same|].
  intros other Hne. now apply assign_other.
Qed.
